(** * Insurance claim and customer risk scoring

    A shallow embedding of the two analysis scripts of the repository:

    - [pyfiles/Q4/anomoly detection.py]: IQR outlier detection per policy
      type, the additive per-claim risk score and the sorted claim report;
    - [pyfiles/Q5/claimpatternanalysis.py]: loss ratio and claim frequency
      with their zero-denominator clean-up, min-max scaled composite customer
      risk score and the four-way segmentation.

    Data frames are lists of records, one record per row, in row order.
    Numeric cells are binary64 values in pandas; they are modelled by
    [xnum]: an exact rational, one of the two infinities, or NaN.  The
    special values follow IEEE-754 as numpy implements it (x/0 is an
    infinity, 0/0 and inf-inf are NaN, every comparison with NaN is false);
    rounding of finite results and the sign of zero are abstracted away:
    the zero of [xnum] is the non-negative zero, +0.0, and a cell -0.0 has
    no counterpart.  Where rounding decides what the code returns, the
    computation is also given bit for bit in binary64 ([Binary64]). *)

From Stdlib Require Import ZArith QArith Qround Lia Lqa Bool List.
From Stdlib Require Import Ascii String Permutation Sorted SpecFloat.
Import ListNotations.

#[local] Open Scope Z_scope.
#[local] Open Scope list_scope.

(** ** Numeric cells *)

Module Num.

Inductive xnum : Type :=
| Fin (q : Q)
| PInf
| NInf
| NaN.

Definition of_Z (z : Z) : xnum := Fin (inject_Z z).

Definition isnan (x : xnum) : bool :=
  match x with NaN => true | _ => false end.

Definition isinf (x : xnum) : bool :=
  match x with PInf | NInf => true | _ => false end.

Definition isfinite (x : xnum) : bool :=
  match x with Fin _ => true | _ => false end.

Definition Qltb (a b : Q) : bool :=
  match Qcompare a b with Lt => true | _ => false end.

Definition Qeqb (a b : Q) : bool :=
  match Qcompare a b with Eq => true | _ => false end.

Definition Qleb (a b : Q) : bool :=
  match Qcompare a b with Gt => false | _ => true end.

(** Sign of a rational: used by multiplication and division with an
    infinite or zero operand. *)
Definition Qsign (a : Q) : comparison := Qcompare a 0.

Definition xopp (x : xnum) : xnum :=
  match x with
  | Fin a => Fin (- a)
  | PInf => NInf
  | NInf => PInf
  | NaN => NaN
  end.

Definition xadd (x y : xnum) : xnum :=
  match x, y with
  | NaN, _ | _, NaN => NaN
  | Fin a, Fin b => Fin (a + b)
  | PInf, NInf | NInf, PInf => NaN
  | PInf, _ | _, PInf => PInf
  | NInf, _ | _, NInf => NInf
  end.

Definition xsub (x y : xnum) : xnum := xadd x (xopp y).

(** An infinity with the sign [s]; a zero sign gives NaN (0 * inf). *)
Definition signed_inf (s : comparison) : xnum :=
  match s with Gt => PInf | Lt => NInf | Eq => NaN end.

Definition xmul (x y : xnum) : xnum :=
  match x, y with
  | NaN, _ | _, NaN => NaN
  | Fin a, Fin b => Fin (a * b)
  | Fin a, PInf | PInf, Fin a => signed_inf (Qsign a)
  | Fin a, NInf | NInf, Fin a => signed_inf (CompOpp (Qsign a))
  | PInf, PInf | NInf, NInf => PInf
  | PInf, NInf | NInf, PInf => NInf
  end.

(** True division of two float columns: no exception, the quotient by
    zero is a signed infinity and 0/0 is NaN.  The zero divisor is +0.0:
    the infinity has the sign of the dividend. *)
Definition xdiv (x y : xnum) : xnum :=
  match x, y with
  | NaN, _ | _, NaN => NaN
  | Fin a, Fin b =>
      if Qeqb b 0 then signed_inf (Qsign a) else Fin (a / b)
  | Fin _, (PInf | NInf) => Fin 0
  | (PInf | NInf), (PInf | NInf) => NaN
  | PInf, Fin b => if Qltb b 0 then NInf else PInf
  | NInf, Fin b => if Qltb b 0 then PInf else NInf
  end.

(** Comparisons: each is false as soon as an operand is NaN. *)
Definition xltb (x y : xnum) : bool :=
  match x, y with
  | NaN, _ | _, NaN => false
  | Fin a, Fin b => Qltb a b
  | Fin _, PInf | NInf, Fin _ | NInf, PInf => true
  | Fin _, NInf | PInf, _ | NInf, NInf => false
  end.

Definition xleb (x y : xnum) : bool :=
  match x, y with
  | NaN, _ | _, NaN => false
  | Fin a, Fin b => Qleb a b
  | Fin _, PInf | NInf, _ | PInf, PInf => true
  | Fin _, NInf | PInf, Fin _ | PInf, NInf => false
  end.

Definition xgtb (x y : xnum) : bool := xltb y x.
Definition xgeb (x y : xnum) : bool := xleb y x.

Definition xeqb (x y : xnum) : bool :=
  match x, y with
  | Fin a, Fin b => Qeqb a b
  | PInf, PInf | NInf, NInf => true
  | _, _ => false
  end.

(** Python's built-in [min(a, b)]: the second argument is returned only
    when it compares strictly below the first. *)
Definition py_min (a b : xnum) : xnum := if xltb b a then b else a.

(** [Series.replace([np.inf, -np.inf], 0)] and [Series.fillna(0)] on one
    cell. *)
Definition replace_inf (x : xnum) : xnum := if isinf x then Fin 0 else x.
Definition fillna (x : xnum) : xnum := if isnan x then Fin 0 else x.

End Num.

(** ** Outcome of a run

    The scripts either return a table or stop with an exception.
    [RuntimeError] is what Q4's [load_data] raises, [ValueError] is what
    scikit-learn's input validation raises, [ZeroDivisionError] is what
    Python's own division raises on the cells of an object column.
    [DataError] is not raised anywhere in the sources; it is the error name
    of the specification's taxonomy and is only here so that statements
    about it can be written. *)

Inductive exception : Type :=
| RuntimeError
| ValueError
| ZeroDivisionError
| DataError.

Inductive outcome (A : Type) : Type :=
| Returned (a : A)
| Raised (e : exception).

Arguments Returned {A} a.
Arguments Raised {A} e.

(** ** Q4: anomaly detection on claims *)

Module Q4.
Import Num.

(** A row of the merged and preprocessed claim table.  [preprocess_data]
    has filled every missing cell with 0, so identifiers and amounts are
    never null; date columns went through [pd.to_datetime(errors='coerce')]
    and are nanosecond timestamps, [None] standing for NaT. *)
Record claim : Type := {
  claim_id : string;
  customer_id : string;
  policy_type : string;
  claim_amount : xnum;
  coverage_amount : xnum;
  claim_date : option Z;
  start_date : option Z
}.

(** *** [Series.quantile] (linear interpolation)

    pandas drops NaN, then numpy sorts the values, takes the virtual index
    [(n - 1) * q], and interpolates between its two neighbours with [_lerp].
    At the last index both neighbours are the last value. *)

Fixpoint insert_sorted (x : xnum) (l : list xnum) : list xnum :=
  match l with
  | [] => [x]
  | y :: t => if xleb x y then x :: l else y :: insert_sorted x t
  end.

Definition sorted_values (l : list xnum) : list xnum :=
  fold_right insert_sorted [] l.

Definition lerp (a b : xnum) (t : Q) : xnum :=
  let diff_b_a := xsub b a in
  if Qleb (1 # 2) t
  then xsub b (xmul diff_b_a (Fin (1 - t)))
  else xadd a (xmul diff_b_a (Fin t)).

Definition quantile (s : list xnum) (q : Q) : xnum :=
  let values := sorted_values (filter (fun x => negb (isnan x)) s) in
  match values with
  | [] => NaN
  | _ :: _ =>
      let n := Z.of_nat (List.length values) in
      let virtual_index := (inject_Z (n - 1) * q)%Q in
      let previous := Qfloor virtual_index in
      let next := Z.min (previous + 1) (n - 1)%Z in
      let gamma := (virtual_index - inject_Z previous)%Q in
      lerp (nth (Z.to_nat previous) values NaN)
           (nth (Z.to_nat next) values NaN) gamma
  end.

(** *** [detect_outliers_iqr] *)

Record flagged : Type := {
  row : claim;
  is_outlier : bool
}.

(** [Series.unique]: distinct values in order of first appearance. *)
Fixpoint unique (l : list string) : list string :=
  match l with
  | [] => []
  | x :: t => x :: filter (fun y => negb (String.eqb y x)) (unique t)
  end.

Definition has_type (ptype : string) (c : claim) : bool :=
  String.eqb (policy_type c) ptype.

Definition lower_bound (subset : list xnum) : xnum :=
  let q1 := quantile subset (1 # 4) in
  let q3 := quantile subset (3 # 4) in
  let iqr := xsub q3 q1 in
  xsub q1 (xmul (Fin (3 # 2)) iqr).

(** The fences are computed without rounding; [Binary64.upper_bound] is
    the rounded computation. *)
Definition upper_bound (subset : list xnum) : xnum :=
  let q1 := quantile subset (1 # 4) in
  let q3 := quantile subset (3 # 4) in
  let iqr := xsub q3 q1 in
  xadd q3 (xmul (Fin (3 # 2)) iqr).

(** One iteration of the loop over policy types: the quartiles of the
    group's amounts, the fences, and [df.loc[mask, "is_outlier"] = True]. *)
Definition flag_group (df : list flagged) (ptype : string) : list flagged :=
  let subset :=
    map (fun r => claim_amount (row r))
        (filter (fun r => has_type ptype (row r)) df) in
  let lo := lower_bound subset in
  let hi := upper_bound subset in
  map (fun r =>
         let mask :=
           has_type ptype (row r)
           && (xltb (claim_amount (row r)) lo
               || xgtb (claim_amount (row r)) hi) in
         if mask then {| row := row r; is_outlier := true |} else r)
      df.

Definition detect_outliers_iqr (df : list claim) : list flagged :=
  fold_left flag_group
            (unique (map policy_type df))
            (map (fun c => {| row := c; is_outlier := false |}) df).

(** *** [calculate_risk_scores] *)

Record scored : Type := {
  base : flagged;
  coverage_ratio : xnum;
  score_coverage : xnum;
  days_since_start : option Z;
  score_timing : Z;
  score_history : Z;
  anomaly_reasons : string;
  risk_score : xnum
}.

Definition ns_per_day : Z := (86400 * 1000000000)%Z.

(** [(claim_date - start_date).dt.days]: NaT when either date is NaT,
    otherwise the whole days of the difference, rounded down. *)
Definition days_between (claim_d start_d : option Z) : option Z :=
  match claim_d, start_d with
  | Some c, Some s => Some ((c - s) / ns_per_day)%Z
  | _, _ => None
  end.

Definition timing_points (days : option Z) : Z :=
  match days with
  | Some x => if (x <? 30)%Z then 30%Z else 0%Z
  | None => 0%Z
  end.

(** [groupby("customer_id")["claim_id"].transform("count")] for one row:
    how many rows of the table carry its customer. *)
Definition claim_count (df : list flagged) (cust : string) : Z :=
  Z.of_nat
    (List.length (filter (fun r => String.eqb (customer_id (row r)) cust) df)).

Definition history_points (count : Z) : Z :=
  Z.min (Z.max (count - 1) 0 * 5) 20.

Definition reason_list
  (history : Z) (coverage : xnum) (timing : Z) (outlier : bool)
  : list string :=
  (if (0 <? history)%Z then ["Multiple claims history"%string] else [])
  ++ (if xgtb coverage (Fin 40)
      then ["High claim-to-coverage ratio"%string] else [])
  ++ (if (0 <? timing)%Z
      then ["Early claim after policy start"%string] else [])
  ++ (if outlier
      then ["Statistical outlier in claim amount"%string] else []).

Definition join_reasons (l : list string) : string :=
  match l with
  | [] => "Normal"%string
  | _ :: _ => String.concat ", " l
  end.

(** [str.count(",")] *)
Fixpoint count_commas (s : string) : Z :=
  match s with
  | EmptyString => 0%Z
  | String c t =>
      ((if Ascii.eqb c ","%char then 1 else 0) + count_commas t)%Z
  end.

Definition reason_bonus (r : string) : Z :=
  if String.eqb r "Normal" then 0%Z else ((count_commas r + 1) * 5)%Z.

Definition score_row (df : list flagged) (r : flagged) : scored :=
  let ratio := xdiv (claim_amount (row r)) (coverage_amount (row r)) in
  let s_cov := py_min (Fin 50) (xmul ratio (Fin 50)) in
  let days := days_between (claim_date (row r)) (start_date (row r)) in
  let s_tim := timing_points days in
  let s_his := history_points (claim_count df (customer_id (row r))) in
  let reasons :=
    join_reasons (reason_list s_his s_cov s_tim (is_outlier r)) in
  {| base := r;
     coverage_ratio := ratio;
     score_coverage := s_cov;
     days_since_start := days;
     score_timing := s_tim;
     score_history := s_his;
     anomaly_reasons := reasons;
     risk_score :=
       xadd (xadd (xadd s_cov (of_Z s_tim)) (of_Z s_his))
            (of_Z (reason_bonus reasons)) |}.

Definition calculate_risk_scores (df : list flagged) : list scored :=
  map (score_row df) df.

(** The function has no [raise] and pandas arithmetic raises nothing on a
    zero divisor: every call returns its table. *)
Definition run_calculate_risk_scores (df : list flagged)
  : outcome (list scored) :=
  Returned (calculate_risk_scores df).

(** *** The report of [process_claims]

    The table handed to [process_claims] here is the merged and
    preprocessed one; loading, merging and writing the CSV are not modelled. *)

Record report_row : Type := {
  out_claim_id : string;
  out_risk_score : xnum;
  out_is_outlier : bool;
  out_anomaly_reasons : string
}.

Definition select_columns (r : scored) : report_row :=
  {| out_claim_id := claim_id (row (base r));
     out_risk_score := risk_score r;
     out_is_outlier := is_outlier (base r);
     out_anomaly_reasons := anomaly_reasons r |}.

(** [str.split(",")] *)
Fixpoint split_commas (s : string) : list string :=
  match s with
  | EmptyString => [EmptyString]
  | String c t =>
      if Ascii.eqb c ","%char then EmptyString :: split_commas t
      else match split_commas t with
           | h :: rest => String c h :: rest
           | [] => [String c EmptyString]
           end
  end.

(** The temporary [reason_count] column. *)
Definition reason_count (r : report_row) : Z :=
  Z.of_nat (List.length (split_commas (out_anomaly_reasons r))).

(** Descending order on a float column as [sort_values] applies it: NaN
    cells go last, the others by decreasing value. *)
Definition risk_ahead (x y : xnum) : bool :=
  if isnan x then false
  else if isnan y then true
  else xgtb x y.

(** [ahead a b]: the keys (reason_count, risk_score), both descending,
    put [a] strictly before [b]. *)
Definition ahead (a b : report_row) : bool :=
  (reason_count b <? reason_count a)
  || ((reason_count a =? reason_count b)
      && risk_ahead (out_risk_score a) (out_risk_score b)).

(** [sort_values] on several columns is pandas' lexsort, which keeps the
    input order of rows with equal keys.  It is modelled by a stable
    insertion sort. *)
Fixpoint insert_row (x : report_row) (l : list report_row)
  : list report_row :=
  match l with
  | [] => [x]
  | y :: t => if ahead y x then y :: insert_row x t else x :: l
  end.

Definition sort_report (l : list report_row) : list report_row :=
  fold_right insert_row [] l.

Definition unsorted_report (df : list claim) : list report_row :=
  map select_columns (calculate_risk_scores (detect_outliers_iqr df)).

Definition process_claims (df : list claim) : list report_row :=
  sort_report (unsorted_report df).

(** *** Vocabulary of the statements about Q4 *)

Definition group_amounts (df : list claim) (ptype : string) : list xnum :=
  map claim_amount (filter (has_type ptype) df).

(** The amount lies strictly outside the fences of the group [ptype]. *)
Definition outside_fences (df : list claim) (ptype : string) (c : claim)
  : bool :=
  xltb (claim_amount c) (lower_bound (group_amounts df ptype))
  || xgtb (claim_amount c) (upper_bound (group_amounts df ptype)).

Definition add_flag (r : flagged) (b : bool) : flagged :=
  {| row := row r; is_outlier := is_outlier r || b |}.

(** A claim of customer "u" with coverage 1000, filed on the policy's
    start date; used to write small tables. *)
Definition claim_of (id ty : string) (amt : Q) : claim :=
  {| claim_id := id; customer_id := "u"; policy_type := ty;
     claim_amount := Fin amt; coverage_amount := Fin 1000;
     claim_date := Some 0; start_date := Some 0 |}.

(** The statement "a claim row with coverage_amount 0 makes the scoring
    fail with a DataError". *)
Definition zero_coverage_is_fatal : Prop :=
  forall (df : list flagged) (r : flagged),
    In r df -> xeqb (coverage_amount (row r)) (Fin 0) = true ->
    run_calculate_risk_scores df = Raised DataError.

(** The reason tags that apply to a scored row, in the order the code
    tests them. *)
Definition reasons_of (s : scored) : list string :=
  reason_list (score_history s) (score_coverage s) (score_timing s)
              (is_outlier (base s)).

(** A claim of customer "u1" on a coverage of 2000, filed [day] days
    after the policy start, not an outlier. *)
Definition claim_on_day (id : string) (amt : Q) (day : Z) : flagged :=
  {| row := {| claim_id := id; customer_id := "u1";
               policy_type := "auto";
               claim_amount := Fin amt; coverage_amount := Fin 2000;
               claim_date := Some (day * ns_per_day);
               start_date := Some 0 |};
     is_outlier := false |}.

(** Three claims of one customer; the first is a claim of 1000 on a
    coverage of 2000, ten days after the policy start. *)
Definition three_claims : list flagged :=
  [claim_on_day "c1" 1000 10; claim_on_day "c2" 200 45;
   claim_on_day "c3" 300 90].



(** The number of anomaly reasons a report row lists: none when the text
    is "Normal", otherwise its comma-separated tags.  This is the count
    the bonus of [calculate_risk_scores] is computed from. *)
Definition anomaly_reason_count (r : report_row) : Z :=
  if String.eqb (out_anomaly_reasons r) "Normal" then 0
  else count_commas (out_anomaly_reasons r) + 1.

(** Row [a] may stand before row [b] when rows are ordered by number of
    anomaly reasons, then risk_score, both descending. *)
Definition by_anomaly_reasons (a b : report_row) : Prop :=
  anomaly_reason_count b < anomaly_reason_count a
  \/ (anomaly_reason_count a = anomaly_reason_count b
      /\ xgeb (out_risk_score a) (out_risk_score b) = true).

(** Two claims of two customers on a coverage of 1000: one of 50 filed 5
    days after the policy start, one of 800 filed after 50 days. *)
Definition early_and_normal : list claim :=
  [ {| claim_id := "early"; customer_id := "u1"; policy_type := "auto";
       claim_amount := Fin 50; coverage_amount := Fin 1000;
       claim_date := Some (5 * ns_per_day); start_date := Some 0 |};
    {| claim_id := "normal"; customer_id := "u2"; policy_type := "auto";
       claim_amount := Fin 800; coverage_amount := Fin 1000;
       claim_date := Some (50 * ns_per_day); start_date := Some 0 |} ].







End Q4.

(** ** Q5: customer pattern analysis *)

Module Q5.
Import Num.

(** One row of the customer-level table built by
    [calculate_customer_features].  [total_claims] is a [nunique] count and
    [fraud_claims] a sum of booleans: both are integers.  The tenure is NaN
    for a customer without a policy start date. *)
Record customer : Type := {
  customer_id : string;
  total_claims : Z;
  total_claim_amount : xnum;
  fraud_claims : Z;
  policy_tenure_years : xnum;
  annual_premium_sum : xnum
}.

Record valued : Type := {
  cust : customer;
  lifetime_value : xnum;
  loss_ratio : xnum
}.

(** [(a / b).replace([np.inf, -np.inf], 0).fillna(0)] *)
Definition cleaned_ratio (a b : xnum) : xnum :=
  fillna (replace_inf (xdiv a b)).

Definition ltv_and_loss_ratio_row (c : customer) : valued :=
  {| cust := c;
     lifetime_value := xsub (annual_premium_sum c) (total_claim_amount c);
     loss_ratio :=
       cleaned_ratio (total_claim_amount c) (annual_premium_sum c) |}.

Definition calculate_ltv_and_loss_ratio (df : list customer) : list valued :=
  map ltv_and_loss_ratio_row df.

(** *** scikit-learn's [MinMaxScaler], feature range (0, 1), one column *)

(** [np.finfo(np.float64).eps] *)
Definition eps : Q := 1 # (2 ^ 52).

Definition fmin (x y : xnum) : xnum :=
  if isnan x then y else if isnan y then x
  else if xltb y x then y else x.

Definition fmax (x y : xnum) : xnum :=
  if isnan x then y else if isnan y then x
  else if xltb x y then y else x.

Definition nanmin (col : list xnum) : xnum := fold_right fmin NaN col.
Definition nanmax (col : list xnum) : xnum := fold_right fmax NaN col.

(** [_handle_zeros_in_scale]: a (near-)constant feature is scaled by 1. *)
Definition handle_zeros_in_scale (scale : xnum) : xnum :=
  if xltb scale (Fin (10 * eps)) then Fin 1 else scale.

Record scaler : Type := {
  data_min_ : xnum;
  data_max_ : xnum;
  data_range_ : xnum;
  scale_ : xnum;
  min_ : xnum
}.

Definition fit (col : list xnum) : scaler :=
  let data_min := nanmin col in
  let data_max := nanmax col in
  let data_range := xsub data_max data_min in
  let scale :=
    xdiv (xsub (Fin 1) (Fin 0)) (handle_zeros_in_scale data_range) in
  {| data_min_ := data_min;
     data_max_ := data_max;
     data_range_ := data_range;
     scale_ := scale;
     min_ := xsub (Fin 0) (xmul data_min scale) |}.

(** [X *= scale_; X += min_] *)
Definition transform (sc : scaler) (x : xnum) : xnum :=
  xadd (xmul x (scale_ sc)) (min_ sc).

Definition sample : Type := (xnum * xnum * xnum)%type.

Definition col0 (x : sample) : xnum := fst (fst x).
Definition col1 (x : sample) : xnum := snd (fst x).
Definition col2 (x : sample) : xnum := snd x.

Definition has_inf (x : sample) : bool :=
  isinf (col0 x) || isinf (col1 x) || isinf (col2 x).

(** Input validation rejects an empty table and infinite cells (NaN is
    allowed); each column is then fitted and transformed on its own. *)
Definition fit_transform (X : list sample) : outcome (list sample) :=
  match X with
  | [] => Raised ValueError
  | _ :: _ =>
      if existsb has_inf X then Raised ValueError
      else
        let s0 := fit (map col0 X) in
        let s1 := fit (map col1 X) in
        let s2 := fit (map col2 X) in
        Returned
          (map (fun x =>
                  (transform s0 (col0 x),
                   transform s1 (col1 x),
                   transform s2 (col2 x)))
               X)
  end.

(** *** [calculate_risk_score] *)

Record rated : Type := {
  val : valued;
  claim_frequency_per_year : xnum;
  risk_score : xnum
}.

Definition claim_frequency (r : valued) : xnum :=
  cleaned_ratio (of_Z (total_claims (cust r)))
                (policy_tenure_years (cust r)).

(** [df[risk_features]] for one row. *)
Definition risk_features (r : valued) : sample :=
  (loss_ratio r, of_Z (fraud_claims (cust r)), claim_frequency r).

Definition scaled_features (df : list valued) : outcome (list sample) :=
  fit_transform (map risk_features df).

Definition weighted_score (s : sample) : xnum :=
  xadd (xadd (xmul (col0 s) (Fin 50)) (xmul (col1 s) (Fin 30)))
       (xmul (col2 s) (Fin 20)).

Definition calculate_risk_score (df : list valued) : outcome (list rated) :=
  match scaled_features df with
  | Raised e => Raised e
  | Returned scaled =>
      Returned
        (map (fun rs =>
                {| val := fst rs;
                   claim_frequency_per_year := claim_frequency (fst rs);
                   risk_score := weighted_score (snd rs) |})
             (combine df scaled))
  end.

(** *** [segment_customers] *)

Inductive segment : Type :=
| PremiumPartner
| GrowthProspect
| RiskManagement
| WatchList.

Definition segment_name (s : segment) : string :=
  match s with
  | PremiumPartner => "Premium Partner"
  | GrowthProspect => "Growth Prospect"
  | RiskManagement => "Risk Management"
  | WatchList => "Watch List"
  end.

Definition assign_segment (lifetime_value risk_score : xnum) : segment :=
  if xgeb lifetime_value (Fin 0) && xleb risk_score (Fin 40)
  then PremiumPartner
  else if xgeb lifetime_value (Fin 0)
          && (xltb (Fin 40) risk_score && xleb risk_score (Fin 60))
  then GrowthProspect
  else if xltb lifetime_value (Fin 0) && xgtb risk_score (Fin 60)
  then RiskManagement
  else WatchList.

Definition segment_customers (df : list rated) : list (rated * segment) :=
  map (fun r =>
         (r, assign_segment (lifetime_value (val r)) (risk_score r)))
      df.

(** *** Vocabulary of the statements about Q5 *)

(** A denominator that is zero or not finite (an infinity or NaN). *)
Definition zero_or_nonfinite (x : xnum) : bool :=
  xeqb x (Fin 0) || negb (isfinite x).

Definition all_finite (col : list xnum) : Prop :=
  Forall (fun x => isfinite x = true) col.

Definition unit_interval (x : xnum) : Prop :=
  xleb (Fin 0) x = true /\ xleb x (Fin 1) = true.

Definition finite_sample (x : sample) : Prop :=
  isfinite (col0 x) = true /\ isfinite (col1 x) = true
  /\ isfinite (col2 x) = true.

(** The transformation [fit_transform] applies to a validated table. *)
Definition scale_sample (X : list sample) (x : sample) : sample :=
  (transform (fit (map col0 X)) (col0 x),
   transform (fit (map col1 X)) (col1 x),
   transform (fit (map col2 X)) (col2 x)).

Definition constant_feature (sel : sample -> xnum) (df : list valued)
  : Prop :=
  forall v w, In v df -> In w df ->
              xeqb (sel (risk_features v)) (sel (risk_features w)) = true.


End Q5.

(** ** The dtype of the claim totals (Q5, lines 91-92)

    The rows of [Q5.customer] give the value of each cell.  What the
    division of line 92 does with them depends on the dtype of the
    [total_claim_amount] column ([annual_premium_sum] is a float64
    column).  It is float64 when the claims table has rows, and the
    division is numpy's: [Q5.calculate_ltv_and_loss_ratio].  When the
    claims file holds only its header, the merged [claim_amount] column is
    an object column, the group sums are Python numbers (the int 0), and
    pandas divides cell by cell with Python's [/], which raises on a zero
    divisor before [replace] and [fillna] are reached. *)

Module Q5Dtype.
Import Num Q5.

Inductive dtype : Type :=
| float64
| object.

(** The dtype of the merged [claim_amount] column, from the claims table
    read by [pd.read_csv]. *)
Definition claim_amount_dtype {A : Type} (claims_df : list A) : dtype :=
  match claims_df with
  | [] => object
  | _ :: _ => float64
  end.

(** [x / y] on one cell. *)
Definition truediv (dt : dtype) (x y : xnum) : outcome xnum :=
  match dt with
  | float64 => Returned (xdiv x y)
  | object =>
      if xeqb y (Fin 0) then Raised ZeroDivisionError
      else Returned (xdiv x y)
  end.

(** The quotient of two columns; the first cell that raises stops it. *)
Fixpoint truediv_column (dt : dtype) (cells : list (xnum * xnum))
  : outcome (list xnum) :=
  match cells with
  | [] => Returned []
  | (x, y) :: rest =>
      match truediv dt x y with
      | Raised e => Raised e
      | Returned q =>
          match truediv_column dt rest with
          | Raised e => Raised e
          | Returned qs => Returned (q :: qs)
          end
      end
  end.

Definition calculate_ltv_and_loss_ratio (dt : dtype) (df : list customer)
  : outcome (list valued) :=
  match truediv_column dt
          (map (fun c => (total_claim_amount c, annual_premium_sum c)) df)
  with
  | Raised e => Raised e
  | Returned ratios =>
      Returned
        (map (fun cr =>
                {| cust := fst cr;
                   lifetime_value :=
                     xsub (annual_premium_sum (fst cr))
                          (total_claim_amount (fst cr));
                   loss_ratio := fillna (replace_inf (snd cr)) |})
             (combine df ratios))
  end.

End Q5Dtype.

(** ** The scorers in binary64 (Q5, lines 89-113; Q4, lines 79-80)

    The same computation as [Q5], on IEEE-754 binary64 values with every
    operation rounded to nearest even, as numpy and scikit-learn carry it
    out. *)

Module Binary64.

Definition prec : Z := 53.
Definition emax : Z := 1024.

Definition float : Type := spec_float.

Definition of_Z (z : Z) : float := binary_normalize prec emax z 0 false.

Definition fadd (x y : float) : float := SFadd prec emax x y.
Definition fsub (x y : float) : float := SFsub prec emax x y.
Definition fmul (x y : float) : float := SFmul prec emax x y.
Definition fdiv (x y : float) : float := SFdiv prec emax x y.
Definition fltb (x y : float) : bool := SFltb x y.

Definition isnan (x : float) : bool :=
  match x with S754_nan => true | _ => false end.

Definition isinf (x : float) : bool :=
  match x with S754_infinity _ => true | _ => false end.

Definition replace_inf (x : float) : float :=
  if isinf x then of_Z 0 else x.

Definition fillna (x : float) : float :=
  if isnan x then of_Z 0 else x.

Definition cleaned_ratio (a b : float) : float :=
  fillna (replace_inf (fdiv a b)).

Record customer : Type := {
  customer_id : string;
  total_claims : Z;
  total_claim_amount : float;
  fraud_claims : Z;
  policy_tenure_years : float;
  annual_premium_sum : float
}.

Definition loss_ratio (c : customer) : float :=
  cleaned_ratio (total_claim_amount c) (annual_premium_sum c).

Definition claim_frequency_per_year (c : customer) : float :=
  cleaned_ratio (of_Z (total_claims c)) (policy_tenure_years c).

Definition sample : Type := (float * float * float)%type.

Definition col0 (x : sample) : float := fst (fst x).
Definition col1 (x : sample) : float := snd (fst x).
Definition col2 (x : sample) : float := snd x.

Definition risk_features (c : customer) : sample :=
  (loss_ratio c, of_Z (fraud_claims c), claim_frequency_per_year c).

(** [np.finfo(np.float64).eps], 2^-52 *)
Definition eps : float := binary_normalize prec emax 1 (-52) false.

Definition fmin (x y : float) : float :=
  if isnan x then y else if isnan y then x
  else if fltb y x then y else x.

Definition fmax (x y : float) : float :=
  if isnan x then y else if isnan y then x
  else if fltb x y then y else x.

Definition nanmin (col : list float) : float := fold_right fmin S754_nan col.
Definition nanmax (col : list float) : float := fold_right fmax S754_nan col.

Definition handle_zeros_in_scale (scale : float) : float :=
  if fltb scale (fmul (of_Z 10) eps) then of_Z 1 else scale.

Record scaler : Type := {
  data_min_ : float;
  data_max_ : float;
  data_range_ : float;
  scale_ : float;
  min_ : float
}.

Definition fit (col : list float) : scaler :=
  let data_min := nanmin col in
  let data_max := nanmax col in
  let data_range := fsub data_max data_min in
  let scale :=
    fdiv (fsub (of_Z 1) (of_Z 0)) (handle_zeros_in_scale data_range) in
  {| data_min_ := data_min;
     data_max_ := data_max;
     data_range_ := data_range;
     scale_ := scale;
     min_ := fsub (of_Z 0) (fmul data_min scale) |}.

(** [X *= scale_; X += min_] *)
Definition transform (sc : scaler) (x : float) : float :=
  fadd (fmul x (scale_ sc)) (min_ sc).

Definition has_inf (x : sample) : bool :=
  isinf (col0 x) || isinf (col1 x) || isinf (col2 x).

Definition fit_transform (X : list sample) : outcome (list sample) :=
  match X with
  | [] => Raised ValueError
  | _ :: _ =>
      if existsb has_inf X then Raised ValueError
      else
        let s0 := fit (map col0 X) in
        let s1 := fit (map col1 X) in
        let s2 := fit (map col2 X) in
        Returned
          (map (fun x =>
                  (transform s0 (col0 x),
                   transform s1 (col1 x),
                   transform s2 (col2 x)))
               X)
  end.

Definition scaled_features (df : list customer) : outcome (list sample) :=
  fit_transform (map risk_features df).

Definition weighted_score (s : sample) : float :=
  fadd (fadd (fmul (col0 s) (of_Z 50)) (fmul (col1 s) (of_Z 30)))
       (fmul (col2 s) (of_Z 20)).

(** The [risk_score] column of [calculate_risk_score], row by row. *)
Definition calculate_risk_score (df : list customer) : outcome (list float) :=
  match scaled_features df with
  | Raised e => Raised e
  | Returned scaled => Returned (map weighted_score scaled)
  end.

(** Two customers with premiums of 1000 and a tenure of one year: A with
    two claims totalling 3000 and one fraudulent claim, B with one claim
    of 500. *)
Definition customers_a_b : list customer :=
  [ {| customer_id := "A"; total_claims := 2;
       total_claim_amount := of_Z 3000; fraud_claims := 1;
       policy_tenure_years := of_Z 1; annual_premium_sum := of_Z 1000 |};
    {| customer_id := "B"; total_claims := 1;
       total_claim_amount := of_Z 500; fraud_claims := 0;
       policy_tenure_years := of_Z 1; annual_premium_sum := of_Z 1000 |} ].

(** *** Lines 79-80 of the claim scorer in binary64 *)

Definition coverage_ratio (claim_amount coverage_amount : float) : float :=
  fdiv claim_amount coverage_amount.

(** [min(50, x * 50)] *)
Definition score_coverage (ratio : float) : float :=
  let y := fmul ratio (of_Z 50) in
  if fltb y (of_Z 50) then y else of_Z 50.

(** *** Lines 38-45 of the outlier detector in binary64

    The quartiles and fences of [Q4], every operation rounded.  The
    quantile is [k/4]; the virtual index [(n - 1) * k / 4] and its
    fractional part are exact in binary64. *)

Definition fleb (x y : float) : bool := SFleb x y.

Fixpoint insert_sorted (x : float) (l : list float) : list float :=
  match l with
  | [] => [x]
  | y :: t => if fleb x y then x :: l else y :: insert_sorted x t
  end.

Definition sorted_values (l : list float) : list float :=
  fold_right insert_sorted [] l.

Definition of_quarters (k : Z) : float :=
  binary_normalize prec emax k (-2) false.

Definition lerp (a b t : float) : float :=
  let diff_b_a := fsub b a in
  if fleb (of_quarters 2) t
  then fsub b (fmul diff_b_a (fsub (of_Z 1) t))
  else fadd a (fmul diff_b_a t).

Definition quantile (s : list float) (k : Z) : float :=
  let values := sorted_values (filter (fun x => negb (isnan x)) s) in
  match values with
  | [] => S754_nan
  | _ :: _ =>
      let n := Z.of_nat (List.length values) in
      let previous := (n - 1) * k / 4 in
      let next := Z.min (previous + 1) (n - 1) in
      let gamma := of_quarters ((n - 1) * k mod 4) in
      lerp (nth (Z.to_nat previous) values S754_nan)
           (nth (Z.to_nat next) values S754_nan) gamma
  end.

Definition lower_bound (subset : list float) : float :=
  let q1 := quantile subset 1 in
  let q3 := quantile subset 3 in
  let iqr := fsub q3 q1 in
  fsub q1 (fmul (of_quarters 6) iqr).

Definition upper_bound (subset : list float) : float :=
  let q1 := quantile subset 1 in
  let q3 := quantile subset 3 in
  let iqr := fsub q3 q1 in
  fadd q3 (fmul (of_quarters 6) iqr).

(** The binary64 value of the decimal [k/10]. *)
Definition tenths (k : Z) : float := fdiv (of_Z k) (of_Z 10).

End Binary64.

(** ** Joins and customer features (Q5, first half)

    [merge_dataframes] and [calculate_customer_features].  The four
    tables are given with the columns these functions read; key columns
    hold identifiers (no missing cell), the other cells may be missing.
    Date columns are the values [pd.to_datetime(errors='coerce')] gives
    them in [merge_dataframes]: nanosecond timestamps, [None] for NaT. *)

Module Q5Features.
Import Num.

(** [pd.merge(left, right, how='left')] on one key: the rows of [left] in
    their order, each paired with every row of [right] that has its key,
    in the order of [right], or with nothing when no row has it. *)
Section LeftMerge.
Context {A B : Type}.

Definition left_merge (on : A -> B -> bool)
  (left : list A) (right : list B) : list (A * option B) :=
  flat_map
    (fun a =>
       match filter (on a) right with
       | [] => [(a, None)]
       | b :: bs => map (fun b' => (a, Some b')) (b :: bs)
       end)
    left.
End LeftMerge.

Record customer_row : Type := {
  customers_customer_id : string
}.

Record policy_row : Type := {
  policy_id : string;
  policies_customer_id : string;
  start_date : option Z;
  status : string;
  annual_premium : xnum
}.

Record claim_row : Type := {
  claim_id : string;
  claims_policy_id : string;
  claim_amount : xnum
}.

Record fraud_row : Type := {
  fraud_claim_id : string;
  is_fraudulent : option bool
}.

Definition claim_with_fraud : Type := (claim_row * option fraud_row)%type.
Definition policy_with_claims : Type :=
  (policy_row * option claim_with_fraud)%type.
Definition master_row : Type := (customer_row * option policy_with_claims)%type.

Definition merge_dataframes
  (claims_df : list claim_row) (policies_df : list policy_row)
  (customers_df : list customer_row) (fraud_df : list fraud_row)
  : list master_row :=
  let claims_with_fraud :=
    left_merge (fun c f => String.eqb (claim_id c) (fraud_claim_id f))
               claims_df fraud_df in
  let policies_with_claims :=
    left_merge
      (fun p (cf : claim_with_fraud) =>
         String.eqb (policy_id p) (claims_policy_id (fst cf)))
      policies_df claims_with_fraud in
  left_merge
    (fun c (pc : policy_with_claims) =>
       String.eqb (customers_customer_id c) (policies_customer_id (fst pc)))
    customers_df policies_with_claims.

(** Columns of the master table; a cell is missing when the join found
    no policy, or no claim, or no fraud record for the row. *)
Definition master_customer_id (r : master_row) : string :=
  customers_customer_id (fst r).

Definition master_policy (r : master_row) : option policy_row :=
  option_map fst (snd r).

Definition master_claim (r : master_row) : option claim_row :=
  match snd r with
  | Some (_, Some (c, _)) => Some c
  | _ => None
  end.

Definition master_start_date (r : master_row) : option Z :=
  match master_policy r with
  | Some p => start_date p
  | None => None
  end.

Definition master_claim_id (r : master_row) : option string :=
  option_map claim_id (master_claim r).

Definition master_claim_amount (r : master_row) : xnum :=
  match master_claim r with
  | Some c => claim_amount c
  | None => NaN
  end.

Definition master_is_fraudulent (r : master_row) : option bool :=
  match snd r with
  | Some (_, Some (_, Some f)) => is_fraudulent f
  | _ => None
  end.

(** *** Aggregations of [groupby('customer_id').agg] *)

(** ['min'] of a date column: NaT cells are skipped. *)
Fixpoint date_min (l : list (option Z)) : option Z :=
  match l with
  | [] => None
  | None :: t => date_min t
  | Some d :: t =>
      match date_min t with
      | None => Some d
      | Some e => Some (Z.min d e)
      end
  end.

Fixpoint present {A : Type} (l : list (option A)) : list A :=
  match l with
  | [] => []
  | None :: t => present t
  | Some a :: t => a :: present t
  end.

(** ['nunique']: the number of distinct values, missing cells left out. *)
Definition nunique (l : list (option string)) : Z :=
  Z.of_nat (List.length (Q4.unique (present l))).

(** ['sum'] of a float column: NaN cells are skipped, no cell gives 0. *)
Definition nansum (l : list xnum) : xnum :=
  fold_left xadd (filter (fun x => negb (isnan x)) l) (Fin 0).

(** [x.fillna(False).sum()] on the fraud flags. *)
Definition fraud_sum (l : list (option bool)) : Z :=
  Z.of_nat
    (List.length
       (filter (fun b => match b with Some true => true | _ => false end) l)).

(** The group keys of [groupby]: the distinct values, sorted. *)
Fixpoint insert_key (k : string) (l : list string) : list string :=
  match l with
  | [] => [k]
  | h :: t => if String.leb k h then k :: l else h :: insert_key k t
  end.

Definition group_keys (l : list string) : list string :=
  fold_right insert_key [] (Q4.unique l).

Definition ns_per_day : Z := 86400 * 1000000000.

(** [(datetime.now() - first_policy_start).dt.days / 365.25] *)
Definition tenure_years (now : Z) (first_policy_start : option Z) : xnum :=
  match first_policy_start with
  | Some s => xdiv (of_Z ((now - s) / ns_per_day)) (Fin (36525 # 100))
  | None => NaN
  end.

(** The active premium of one customer after the left merge of
    [active_premiums] and [fillna(0)]: the sum over his policies whose
    status is exactly "ACTIVE", 0 when he has none. *)
Definition active_premium_sum (policies_df : list policy_row)
  (customer : string) : xnum :=
  let active :=
    filter (fun p => String.eqb (status p) "ACTIVE"
                     && String.eqb (policies_customer_id p) customer)
           policies_df in
  fillna (match active with
          | [] => NaN
          | _ :: _ => nansum (map annual_premium active)
          end).

(** [now] is the value of [datetime.now()], in nanoseconds. *)
Definition calculate_customer_features
  (master_df : list master_row) (policies_df : list policy_row) (now : Z)
  : list Q5.customer :=
  map (fun k =>
         let group :=
           filter (fun r => String.eqb (master_customer_id r) k) master_df in
         let first_policy_start := date_min (map master_start_date group) in
         {| Q5.customer_id := k;
            Q5.total_claims := nunique (map master_claim_id group);
            Q5.total_claim_amount := nansum (map master_claim_amount group);
            Q5.fraud_claims := fraud_sum (map master_is_fraudulent group);
            Q5.policy_tenure_years := tenure_years now first_policy_start;
            Q5.annual_premium_sum :=
              active_premium_sum policies_df k |})
      (group_keys (map master_customer_id master_df)).

(** The steps of the script's main block up to the segments. *)
Definition analyse
  (claims_df : list claim_row) (policies_df : list policy_row)
  (customers_df : list customer_row) (fraud_df : list fraud_row) (now : Z)
  : outcome (list (Q5.rated * Q5.segment)) :=
  let master_table :=
    merge_dataframes claims_df policies_df customers_df fraud_df in
  let customer_level_data :=
    calculate_customer_features master_table policies_df now in
  match
    Q5Dtype.calculate_ltv_and_loss_ratio
      (Q5Dtype.claim_amount_dtype claims_df) customer_level_data
  with
  | Raised e => Raised e
  | Returned customer_level_data =>
      match Q5.calculate_risk_score customer_level_data with
      | Raised e => Raised e
      | Returned customer_level_data =>
          Returned (Q5.segment_customers customer_level_data)
      end
  end.

End Q5Features.

(** * Properties *)

(** ** Facts about numeric cells *)

Module NumFacts.
Import Num.

Lemma Qltb_lt (a b : Q) : Qltb a b = true <-> (a < b)%Q.
Proof.
  unfold Qltb. rewrite Qlt_alt. destruct (a ?= b)%Q; split; congruence.
Qed.

Lemma Qleb_le (a b : Q) : Qleb a b = true <-> (a <= b)%Q.
Proof.
  unfold Qleb. rewrite Qle_alt. destruct (a ?= b)%Q; split; congruence.
Qed.

Lemma Qeqb_eq (a b : Q) : Qeqb a b = true <-> (a == b)%Q.
Proof.
  unfold Qeqb. rewrite Qeq_alt. destruct (a ?= b)%Q; split; congruence.
Qed.

Lemma Qltb_ge (a b : Q) : Qltb a b = false <-> (b <= a)%Q.
Proof.
  split; intro H.
  - apply Qnot_lt_le. intro L. apply Qltb_lt in L. congruence.
  - destruct (Qltb a b) eqn:E; trivial.
    apply Qltb_lt in E. exfalso. exact (Qlt_not_le _ _ E H).
Qed.

Lemma Qleb_gt (a b : Q) : Qleb a b = false <-> (b < a)%Q.
Proof.
  split; intro H.
  - apply Qnot_le_lt. intro L. apply Qleb_le in L. congruence.
  - destruct (Qleb a b) eqn:E; trivial.
    apply Qleb_le in E. exfalso. exact (Qlt_not_le _ _ H E).
Qed.

Lemma Qeqb_neq (a b : Q) : Qeqb a b = false <-> ~ (a == b)%Q.
Proof.
  split; intro H.
  - intro E. apply Qeqb_eq in E. congruence.
  - destruct (Qeqb a b) eqn:E; trivial. apply Qeqb_eq in E. contradiction.
Qed.

(** Moves every boolean test on rationals in the context and the goal to
    its proposition. *)
Ltac qprop :=
  repeat match goal with
    | H : Qltb _ _ = true |- _ => apply Qltb_lt in H
    | H : Qltb _ _ = false |- _ => apply Qltb_ge in H
    | H : Qleb _ _ = true |- _ => apply Qleb_le in H
    | H : Qleb _ _ = false |- _ => apply Qleb_gt in H
    | H : Qeqb _ _ = true |- _ => apply Qeqb_eq in H
    | H : Qeqb _ _ = false |- _ => apply Qeqb_neq in H
    | |- Qltb _ _ = true => apply Qltb_lt
    | |- Qltb _ _ = false => apply Qltb_ge
    | |- Qleb _ _ = true => apply Qleb_le
    | |- Qleb _ _ = false => apply Qleb_gt
    | |- Qeqb _ _ = true => apply Qeqb_eq
    | |- Qeqb _ _ = false => apply Qeqb_neq
    end.

Lemma xltb_not_xleb (x y : xnum) : xltb x y = true -> xleb y x = false.
Proof.
  destruct x, y; simpl; try congruence.
  intro H. qprop. exact H.
Qed.

Lemma xleb_not_xltb (x y : xnum) : xleb x y = true -> xltb y x = false.
Proof.
  destruct x, y; simpl; try congruence.
  intro H. qprop. exact H.
Qed.

Lemma xleb_finite (x : xnum) (a b : Q) :
  xleb (Fin a) x = true -> xleb x (Fin b) = true ->
  exists q, x = Fin q /\ (a <= q <= b)%Q.
Proof.
  destruct x; simpl; try congruence.
  intros H1 H2. qprop. eauto.
Qed.

End NumFacts.

(** ** Customer scoring and segmentation (Q5) *)

Module Q5Facts.
Import Num NumFacts Q5.

Lemma cleaned_ratio_finite (a b : xnum) :
  exists q, cleaned_ratio a b = Fin q.
Proof.
  unfold cleaned_ratio, fillna, replace_inf.
  destruct (xdiv a b); simpl; eauto.
Qed.

Lemma cleaned_ratio_zero (a b : xnum) :
  zero_or_nonfinite b = true -> cleaned_ratio a b = Fin 0.
Proof.
  unfold zero_or_nonfinite, cleaned_ratio.
  destruct b as [d | | |]; simpl; intro H.
  - rewrite orb_false_r in H.
    destruct a as [n | | |]; simpl.
    + rewrite H. destruct (Qsign n); reflexivity.
    + qprop. assert (L : Qltb d 0 = false) by (qprop; lra).
      rewrite L. reflexivity.
    + qprop. assert (L : Qltb d 0 = false) by (qprop; lra).
      rewrite L. reflexivity.
    + reflexivity.
  - destruct a; reflexivity.
  - destruct a; reflexivity.
  - destruct a; reflexivity.
Qed.

(** C2. Segmentation is the ordered decision list of the four rules.
    The three guarded rules exclude one another, so each segment is
    returned exactly on its own condition and [WatchList] exactly when no
    guarded rule applies; risk_score 40 with lifetime_value 0 is a
    PremiumPartner, risk_score 60 with lifetime_value -1 is on the
    WatchList. *)
Theorem assign_segment_decision_list (lv rs : xnum) :
  (assign_segment lv rs = PremiumPartner <->
     xgeb lv (Fin 0) = true /\ xleb rs (Fin 40) = true)
  /\ (assign_segment lv rs = GrowthProspect <->
        xgeb lv (Fin 0) = true
        /\ xltb (Fin 40) rs = true /\ xleb rs (Fin 60) = true)
  /\ (assign_segment lv rs = RiskManagement <->
        xltb lv (Fin 0) = true /\ xgtb rs (Fin 60) = true)
  /\ (assign_segment lv rs = WatchList <->
        ~ (xgeb lv (Fin 0) = true /\ xleb rs (Fin 40) = true)
        /\ ~ (xgeb lv (Fin 0) = true
              /\ xltb (Fin 40) rs = true /\ xleb rs (Fin 60) = true)
        /\ ~ (xltb lv (Fin 0) = true /\ xgtb rs (Fin 60) = true))
  /\ assign_segment (Fin 0) (Fin 40) = PremiumPartner
  /\ assign_segment (Fin (-1)) (Fin 60) = WatchList.
Proof.
  assert (X1 : xltb (Fin 40) rs = true -> xleb rs (Fin 40) = false)
    by apply xltb_not_xleb.
  assert (X2 : xltb lv (Fin 0) = true -> xgeb lv (Fin 0) = false)
    by apply xltb_not_xleb.
  unfold assign_segment, xgtb in *.
  destruct (xgeb lv (Fin 0)) eqn:A, (xleb rs (Fin 40)) eqn:B,
           (xltb (Fin 40) rs) eqn:C, (xleb rs (Fin 60)) eqn:D,
           (xltb lv (Fin 0)) eqn:E, (xltb (Fin 60) rs) eqn:F;
    simpl;
    try (specialize (X1 eq_refl)); try (specialize (X2 eq_refl));
    try discriminate;
    repeat split; try reflexivity; try tauto; try discriminate;
    try (intros [? ?]; discriminate);
    try (intros [? [? ?]]; discriminate);
    try (intros [N1 [N2 N3]]; exfalso; tauto).
Qed.

(** *** Min-max scaling of a finite column *)

Lemma nanmin_finite (col : list xnum) :
  all_finite col ->
  (col = [] /\ nanmin col = NaN)
  \/ (exists m, nanmin col = Fin m
                /\ In (Fin m) col
                /\ forall q, In (Fin q) col -> (m <= q)%Q).
Proof.
  induction 1 as [| x t Hx Ht IH]; [left; auto | right].
  destruct x as [a | | |]; try discriminate.
  unfold nanmin in *. cbn [fold_right].
  destruct IH as [[-> ->] | [m [-> [Hin Hlow]]]].
  - exists a. cbn. repeat split; auto.
    intros q [E | []]. injection E as <-. lra.
  - unfold fmin. cbn [isnan xltb].
    destruct (Qltb m a) eqn:L; qprop.
    + exists m. repeat split; [right; exact Hin |].
      intros q [E | Hq]; [injection E as <-; lra | auto].
    + exists a. repeat split; [left; reflexivity |].
      intros q [E | Hq]; [injection E as <-; lra |].
      specialize (Hlow q Hq). lra.
Qed.

Lemma nanmax_finite (col : list xnum) :
  all_finite col ->
  (col = [] /\ nanmax col = NaN)
  \/ (exists m, nanmax col = Fin m
                /\ In (Fin m) col
                /\ forall q, In (Fin q) col -> (q <= m)%Q).
Proof.
  induction 1 as [| x t Hx Ht IH]; [left; auto | right].
  destruct x as [a | | |]; try discriminate.
  unfold nanmax in *. cbn [fold_right].
  destruct IH as [[-> ->] | [m [-> [Hin Hup]]]].
  - exists a. cbn. repeat split; auto.
    intros q [E | []]. injection E as <-. lra.
  - unfold fmax. cbn [isnan xltb].
    destruct (Qltb a m) eqn:L; qprop.
    + exists m. repeat split; [right; exact Hin |].
      intros q [E | Hq]; [injection E as <-; lra | auto].
    + exists a. repeat split; [left; reflexivity |].
      intros q [E | Hq]; [injection E as <-; lra |].
      specialize (Hup q Hq). lra.
Qed.

Lemma ten_eps_small : (0 < 10 * eps /\ 10 * eps < 1)%Q.
Proof. split; reflexivity. Qed.

(** The scaler fitted on a finite column sends each of its cells into
    [0, 1], and to 0 when the column is constant. *)
Lemma transform_fit_finite (col : list xnum) (x : Q) :
  all_finite col -> In (Fin x) col ->
  exists y, transform (fit col) (Fin x) = Fin y
            /\ (0 <= y <= 1)%Q
            /\ ((forall q, In (Fin q) col -> (q == x)%Q) -> (y == 0)%Q).
Proof.
  intros Hfin Hx.
  destruct (nanmin_finite col Hfin) as [[-> _] | [m [Em [Im Lm]]]]; [destruct Hx |].
  destruct (nanmax_finite col Hfin) as [[-> _] | [M [EM [IM LM]]]]; [destruct Hx |].
  pose proof (Lm x Hx) as Hmx. pose proof (LM x Hx) as HxM.
  destruct ten_eps_small as [E0 E1].
  unfold transform, fit. cbn [scale_ min_]. rewrite Em, EM.
  cbn [xsub xopp xadd]. unfold handle_zeros_in_scale. cbn [xltb].
  destruct (Qltb (M + - m) (10 * eps)) eqn:R; qprop.
  - assert (D : Qeqb 1 0 = false) by reflexivity.
    cbn [xdiv]. rewrite D. cbn [xmul xsub xopp xadd].
    eexists; split; [reflexivity |].
    assert (Y : (x * ((1 + - 0) / 1) + (0 + - (m * ((1 + - 0) / 1)))
                 == x - m)%Q) by field.
    split; [rewrite Y; lra |].
    intros C. rewrite Y. pose proof (C m Im). lra.
  - assert (D : Qeqb (M + - m) 0 = false) by (qprop; lra).
    cbn [xdiv]. rewrite D. cbn [xmul xsub xopp xadd].
    eexists; split; [reflexivity |].
    assert (Dpos : (0 < M + - m)%Q) by lra.
    assert (Dnz : ~ (M + - m == 0)%Q) by lra.
    assert (Y : (x * ((1 + - 0) / (M + - m))
                 + (0 + - (m * ((1 + - 0) / (M + - m))))
                 == (x - m) / (M + - m))%Q) by (field; exact Dnz).
    split.
    + rewrite Y. split.
      * apply Qle_shift_div_l; [exact Dpos | lra].
      * apply Qle_shift_div_r; [exact Dpos | lra].
    + intros C. exfalso.
      pose proof (C m Im). pose proof (C M IM). lra.
Qed.

Lemma weighted_score_bounds (s : sample) :
  unit_interval (col0 s) -> unit_interval (col1 s) ->
  unit_interval (col2 s) ->
  xleb (Fin 0) (weighted_score s) = true
  /\ xleb (weighted_score s) (Fin 100) = true.
Proof.
  destruct s as [[a b] c]. unfold col0, col1, col2, unit_interval.
  cbn [fst snd]. intros [A0 A1] [B0 B1] [C0 C1].
  destruct (xleb_finite _ _ _ A0 A1) as [qa [-> Ha]].
  destruct (xleb_finite _ _ _ B0 B1) as [qb [-> Hb]].
  destruct (xleb_finite _ _ _ C0 C1) as [qc [-> Hc]].
  unfold weighted_score, col0, col1, col2. cbn [fst snd xmul xadd xleb].
  split; qprop; lra.
Qed.

(** *** The scored population *)

Lemma combine_map_self (A B : Type) (f : A -> B) (l : list A) :
  combine l (map f l) = map (fun x => (x, f x)) l.
Proof.
  induction l as [| a l IH]; cbn; [reflexivity | now rewrite IH].
Qed.

Lemma risk_features_finite (c : customer) :
  finite_sample (risk_features (ltv_and_loss_ratio_row c)).
Proof.
  unfold finite_sample, risk_features, claim_frequency, col0, col1, col2.
  cbn [fst snd loss_ratio ltv_and_loss_ratio_row cust].
  destruct (cleaned_ratio_finite (total_claim_amount c)
                                 (annual_premium_sum c)) as [q1 ->].
  destruct (cleaned_ratio_finite (of_Z (total_claims c))
                                 (policy_tenure_years c)) as [q2 ->].
  repeat split.
Qed.

Lemma fit_transform_finite (X : list sample) :
  X <> [] -> Forall finite_sample X ->
  fit_transform X = Returned (map (scale_sample X) X).
Proof.
  intros Hne Hfin. unfold fit_transform.
  destruct X as [| x0 X']; [contradiction |].
  set (X := x0 :: X') in *.
  assert (E : existsb has_inf X = false).
  { clearbody X. clear Hne. induction Hfin as [| x t [A [B C]] _ IH];
      [reflexivity |].
    cbn [existsb]. rewrite IH. unfold has_inf.
    destruct (col0 x), (col1 x), (col2 x); try discriminate; reflexivity. }
  rewrite E. reflexivity.
Qed.

Lemma pipeline_features_finite (df : list customer) :
  Forall finite_sample
         (map risk_features (calculate_ltv_and_loss_ratio df)).
Proof.
  unfold calculate_ltv_and_loss_ratio. rewrite map_map.
  apply Forall_forall. intros x Hx. apply in_map_iff in Hx.
  destruct Hx as [c [<- _]]. apply risk_features_finite.
Qed.

Lemma scaled_features_pipeline (df : list customer) :
  df <> [] ->
  let X := map risk_features (calculate_ltv_and_loss_ratio df) in
  scaled_features (calculate_ltv_and_loss_ratio df)
  = Returned (map (scale_sample X) X).
Proof.
  intros Hne X. unfold scaled_features. apply fit_transform_finite.
  - subst X. unfold calculate_ltv_and_loss_ratio.
    destruct df; [contradiction | discriminate].
  - apply pipeline_features_finite.
Qed.

(** One column of a validated table after scaling. *)
Lemma column_scaled (sel : sample -> xnum) (X : list sample) (x : sample) :
  (forall y, In y X -> isfinite (sel y) = true) -> In x X ->
  unit_interval (transform (fit (map sel X)) (sel x))
  /\ ((forall y z, In y X -> In z X -> xeqb (sel y) (sel z) = true) ->
      xeqb (transform (fit (map sel X)) (sel x)) (Fin 0) = true).
Proof.
  intros Hfin Hx.
  assert (A : all_finite (map sel X)).
  { apply Forall_forall. intros v Hv. apply in_map_iff in Hv.
    destruct Hv as [y [<- Hy]]. auto. }
  pose proof (Hfin x Hx) as Fx.
  destruct (sel x) as [q | | |] eqn:Ex; try discriminate.
  assert (I : In (Fin q) (map sel X)).
  { rewrite <- Ex. apply in_map. exact Hx. }
  destruct (transform_fit_finite _ _ A I) as [y [-> [Hy Hc]]].
  split.
  - split; cbn [xleb]; qprop; lra.
  - intros Hconst. cbn [xeqb]. qprop. apply Hc.
    intros v Hv. apply in_map_iff in Hv. destruct Hv as [z [Ez Hz]].
    specialize (Hconst z x Hz Hx). rewrite Ez, Ex in Hconst.
    cbn [xeqb] in Hconst. qprop. exact Hconst.
Qed.

(** Without rounding (the exact arithmetic of [Q5]): on a non-empty
    population the three risk features are min-max scaled into [0, 1] for
    every customer; a feature that has the same value for all customers is
    scaled to 0 for each of them (a number, not NaN); and the weighted
    composite lies in [0, 100].  The rounded computation of [Binary64]
    leaves these bounds by one unit in the last place. *)
Theorem min_max_scaled_risk_score (df : list customer) :
  df <> [] ->
  let vdf := calculate_ltv_and_loss_ratio df in
  exists scaled out,
    scaled_features vdf = Returned scaled
    /\ calculate_risk_score vdf = Returned out
    /\ List.length scaled = List.length df
    /\ List.length out = List.length df
    /\ (forall s, In s scaled ->
          unit_interval (col0 s) /\ unit_interval (col1 s)
          /\ unit_interval (col2 s))
    /\ (forall sel, In sel [col0; col1; col2] ->
          constant_feature sel vdf ->
          forall s, In s scaled -> xeqb (sel s) (Fin 0) = true)
    /\ (forall r, In r out ->
          xleb (Fin 0) (risk_score r) = true
          /\ xleb (risk_score r) (Fin 100) = true).
Proof.
  intros Hne vdf.
  pose proof (scaled_features_pipeline df Hne) as E. cbn zeta in E.
  fold vdf in E. set (X := map risk_features vdf) in *.
  assert (Hfin : Forall finite_sample X) by apply pipeline_features_finite.
  rewrite Forall_forall in Hfin.
  assert (Bounds : forall s, In s (map (scale_sample X) X) ->
            unit_interval (col0 s) /\ unit_interval (col1 s)
            /\ unit_interval (col2 s)).
  { intros s Hs. apply in_map_iff in Hs. destruct Hs as [x [<- Hx]].
    unfold scale_sample, col0 at 1, col1 at 1, col2 at 1. cbn [fst snd].
    repeat split;
      apply column_scaled; auto; intros y Hy; apply (Hfin y Hy). }
  exists (map (scale_sample X) X).
  unfold calculate_risk_score. rewrite E.
  eexists. split; [reflexivity |]. split; [reflexivity |].
  split; [| split; [| split; [exact Bounds | split]]].
  - subst X vdf. unfold calculate_ltv_and_loss_ratio.
    now rewrite !length_map.
  - rewrite length_map, length_combine. subst X vdf.
    unfold calculate_ltv_and_loss_ratio. rewrite !length_map. lia.
  - intros sel Hsel Hconst s Hs.
    apply in_map_iff in Hs. destruct Hs as [x [<- Hx]].
    assert (C : forall y z, In y X -> In z X ->
                            xeqb (sel y) (sel z) = true).
    { intros y z Hy Hz. subst X. apply in_map_iff in Hy, Hz.
      destruct Hy as [v [<- Hv]], Hz as [w [<- Hw]]. auto. }
    destruct Hsel as [<- | [<- | [<- | []]]];
      unfold scale_sample; [unfold col0 at 1 | unfold col1 at 1
                           | unfold col2 at 1]; cbn [fst snd];
      apply column_scaled; auto; intros y Hy; apply (Hfin y Hy).
  - intros r Hr. apply in_map_iff in Hr.
    destruct Hr as [[v s] [<- Hvs]]. cbn [risk_score snd].
    apply in_combine_r in Hvs. destruct (Bounds s Hvs) as [B0 [B1 B2]].
    apply weighted_score_bounds; assumption.
Qed.

Lemma min_max_scaled_risk_score_witness :
  let a := {| customer_id := "A"; total_claims := 2;
              total_claim_amount := Fin 500; fraud_claims := 1;
              policy_tenure_years := Fin 2;
              annual_premium_sum := Fin 1000 |} in
  let b := {| customer_id := "B"; total_claims := 0;
              total_claim_amount := Fin 0; fraud_claims := 0;
              policy_tenure_years := NaN;
              annual_premium_sum := Fin 0 |} in
  exists scaled out,
    scaled_features (calculate_ltv_and_loss_ratio [a; b]) = Returned scaled
    /\ calculate_risk_score (calculate_ltv_and_loss_ratio [a; b])
       = Returned out
    /\ List.length scaled = 2%nat
    /\ List.length out = 2%nat
    /\ (forall s, In s scaled ->
          unit_interval (col0 s) /\ unit_interval (col1 s)
          /\ unit_interval (col2 s))
    /\ (forall sel, In sel [col0; col1; col2] ->
          constant_feature sel (calculate_ltv_and_loss_ratio [a; b]) ->
          forall s, In s scaled -> xeqb (sel s) (Fin 0) = true)
    /\ (forall r, In r out ->
          xleb (Fin 0) (risk_score r) = true
          /\ xleb (risk_score r) (Fin 100) = true).
Proof.
  intros a b. apply (min_max_scaled_risk_score [a; b]). discriminate.
Defined.

(** On float64 columns (a claims table with rows) a zero or non-finite
    denominator makes the ratio 0 and raises nothing: on a non-empty
    population [calculate_risk_score] returns the table of all customers,
    every customer whose annual_premium_sum is zero or non-finite has
    loss_ratio 0, and every customer whose policy_tenure_years is zero or
    non-finite has claim_frequency_per_year 0.  A customer with
    annual_premium_sum 0 and total_claim_amount 500 has loss_ratio 0.  The
    object column of an empty claims table is the subject of
    [Q5DtypeFacts]. *)
Theorem zero_denominator_resolves_to_zero (df : list customer) :
  df <> [] ->
  let vdf := calculate_ltv_and_loss_ratio df in
  exists out,
    calculate_risk_score vdf = Returned out
    /\ map (fun r => cust (val r)) out = df
    /\ (forall r, In r out ->
          (zero_or_nonfinite (annual_premium_sum (cust (val r))) = true ->
           loss_ratio (val r) = Fin 0)
          /\ (zero_or_nonfinite (policy_tenure_years (cust (val r))) = true ->
              claim_frequency_per_year r = Fin 0))
    /\ (forall id n f t,
          loss_ratio
            (ltv_and_loss_ratio_row
               {| customer_id := id; total_claims := n;
                  total_claim_amount := Fin 500; fraud_claims := f;
                  policy_tenure_years := t;
                  annual_premium_sum := Fin 0 |}) = Fin 0).
Proof.
  intros Hne vdf.
  pose proof (scaled_features_pipeline df Hne) as E. cbn zeta in E.
  fold vdf in E. unfold calculate_risk_score. rewrite E.
  rewrite (map_map risk_features (scale_sample (map risk_features vdf))).
  rewrite combine_map_self, map_map.
  eexists. split; [reflexivity |]. split; [| split].
  - rewrite map_map. cbn [val fst]. subst vdf.
    unfold calculate_ltv_and_loss_ratio. rewrite map_map. cbn [cust].
    apply map_id.
  - intros r Hr. apply in_map_iff in Hr. destruct Hr as [v [<- Hv]].
    cbn [val fst claim_frequency_per_year].
    subst vdf. unfold calculate_ltv_and_loss_ratio in Hv.
    apply in_map_iff in Hv. destruct Hv as [c [<- _]].
    cbn [cust loss_ratio ltv_and_loss_ratio_row]. split.
    + apply cleaned_ratio_zero.
    + unfold claim_frequency. cbn [cust]. apply cleaned_ratio_zero.
  - intros. reflexivity.
Qed.

Lemma zero_denominator_resolves_to_zero_witness :
  let a := {| customer_id := "A"; total_claims := 3;
              total_claim_amount := Fin 500; fraud_claims := 0;
              policy_tenure_years := Fin 0;
              annual_premium_sum := Fin 0 |} in
  exists out,
    calculate_risk_score (calculate_ltv_and_loss_ratio [a]) = Returned out
    /\ map (fun r => cust (val r)) out = [a]
    /\ (forall r, In r out ->
          (zero_or_nonfinite (annual_premium_sum (cust (val r))) = true ->
           loss_ratio (val r) = Fin 0)
          /\ (zero_or_nonfinite (policy_tenure_years (cust (val r))) = true ->
              claim_frequency_per_year r = Fin 0))
    /\ (forall id n f t,
          loss_ratio
            (ltv_and_loss_ratio_row
               {| customer_id := id; total_claims := n;
                  total_claim_amount := Fin 500; fraud_claims := f;
                  policy_tenure_years := t;
                  annual_premium_sum := Fin 0 |}) = Fin 0).
Proof.
  intros a. apply (zero_denominator_resolves_to_zero [a]). discriminate.
Defined.

End Q5Facts.

(** ** Outlier detection and claim scoring (Q4) *)

Module Q4Facts.
Import Num NumFacts Q4.

(** *** What the loop of [detect_outliers_iqr] computes *)

Lemma has_type_eq (ptype : string) (c : claim) :
  has_type ptype c = true <-> policy_type c = ptype.
Proof. unfold has_type. apply String.eqb_eq. Qed.

Lemma group_amounts_rows (d : list flagged) (ptype : string) :
  map (fun r => claim_amount (row r))
      (filter (fun r => has_type ptype (row r)) d)
  = group_amounts (map row d) ptype.
Proof.
  unfold group_amounts. induction d as [| r d IH]; [reflexivity |].
  cbn [map filter]. destruct (has_type ptype (row r)); cbn [map];
    now rewrite IH.
Qed.

Lemma flag_group_spec (d : list flagged) (ptype : string) :
  flag_group d ptype
  = map (fun r =>
           add_flag r (has_type ptype (row r)
                       && outside_fences (map row d) ptype (row r)))
        d.
Proof.
  unfold flag_group. rewrite group_amounts_rows.
  apply map_ext. intros [c b]. unfold add_flag, outside_fences.
  cbn [row is_outlier].
  destruct (has_type ptype c
            && (xltb (claim_amount c)
                     (lower_bound (group_amounts (map row d) ptype))
                || xgtb (claim_amount c)
                        (upper_bound (group_amounts (map row d) ptype))));
    [now rewrite orb_true_r | now rewrite orb_false_r].
Qed.

Lemma flag_group_rows (d : list flagged) (ptype : string) :
  map row (flag_group d ptype) = map row d.
Proof.
  rewrite flag_group_spec, map_map. apply map_ext. reflexivity.
Qed.

Lemma fold_flag_group (ps : list string) (d : list flagged) :
  fold_left flag_group ps d
  = map (fun r =>
           add_flag r
             (existsb (fun p => has_type p (row r)
                                && outside_fences (map row d) p (row r))
                      ps))
        d.
Proof.
  revert d. induction ps as [| p ps IH]; intro d.
  - cbn [fold_left existsb]. rewrite <- (map_id d) at 1.
    apply map_ext. intros [c b]. unfold add_flag. cbn.
    now rewrite orb_false_r.
  - cbn [fold_left existsb]. rewrite IH, flag_group_rows.
    rewrite flag_group_spec at 1. rewrite map_map.
    apply map_ext. intros [c b]. unfold add_flag. cbn [row is_outlier].
    now rewrite orb_assoc.
Qed.

Lemma unique_In (x : string) (l : list string) :
  In x (unique l) <-> In x l.
Proof.
  induction l as [| y l IH]; [reflexivity |].
  cbn [unique In]. rewrite filter_In, IH.
  destruct (String.eqb_spec x y) as [-> | N]; cbn; [tauto |].
  split; [tauto |]. intros [E | H]; [congruence | auto].
Qed.

Lemma own_group_decides (ps : list string) (df : list claim) (c : claim) :
  In (policy_type c) ps ->
  existsb (fun p => has_type p c && outside_fences df p c) ps
  = outside_fences df (policy_type c) c.
Proof.
  intro Hin.
  destruct (outside_fences df (policy_type c) c) eqn:O.
  - apply existsb_exists. exists (policy_type c). split; [exact Hin |].
    rewrite O. unfold has_type. now rewrite String.eqb_refl.
  - destruct (existsb _ ps) eqn:E; [| reflexivity].
    apply existsb_exists in E. destruct E as [p [_ Hp]].
    apply andb_true_iff in Hp. destruct Hp as [T Hp].
    apply has_type_eq in T. subst p. congruence.
Qed.

(** Each row is returned with the flag its own policy-type group gives
    it. *)
Lemma detect_outliers_iqr_spec (df : list claim) :
  detect_outliers_iqr df
  = map (fun c => {| row := c;
                     is_outlier := outside_fences df (policy_type c) c |})
        df.
Proof.
  unfold detect_outliers_iqr. rewrite fold_flag_group, !map_map.
  apply map_ext_in. intros c Hc. unfold add_flag. cbn [row is_outlier orb].
  rewrite map_id. f_equal. apply own_group_decides.
  apply unique_In. now apply in_map.
Qed.

(** *** Quartiles of a single value *)

Lemma lerp_same (a t : Q) :
  exists v, lerp (Fin a) (Fin a) t = Fin v /\ (v == a)%Q.
Proof.
  unfold lerp. cbn [xsub xopp xadd xmul].
  destruct (Qleb (1 # 2) t); eexists; (split; [reflexivity | ring]).
Qed.

Lemma lerp_infinite (x : xnum) (t : Q) :
  isinf x = true -> lerp x x t = NaN.
Proof.
  destruct x; try discriminate; intros _; unfold lerp; cbn;
    destruct (Qleb (1 # 2) t); reflexivity.
Qed.

Lemma quantile_singleton (x : xnum) (q : Q) :
  quantile [x] q
  = if isnan x then NaN
    else lerp x x (inject_Z 0 * q - inject_Z 0).
Proof.
  unfold quantile. cbn [filter].
  destruct (isnan x) eqn:N; cbn [negb]; [reflexivity |].
  cbn [sorted_values fold_right insert_sorted List.length Z.of_nat].
  replace (Z.pos (Pos.of_succ_nat 0) - 1) with 0 by reflexivity.
  assert (F : Qfloor (inject_Z 0 * q) = 0).
  { rewrite (Qfloor_comp (inject_Z 0 * q) 0) by ring. reflexivity. }
  cbv zeta. rewrite F. reflexivity.
Qed.

Lemma singleton_fences (a : Q) :
  exists q1 q3 lo hi,
    quantile [Fin a] (1 # 4) = Fin q1 /\ quantile [Fin a] (3 # 4) = Fin q3
    /\ lower_bound [Fin a] = Fin lo /\ upper_bound [Fin a] = Fin hi
    /\ (q1 == a)%Q /\ (q3 == a)%Q /\ (q3 - q1 == 0)%Q
    /\ (lo == a)%Q /\ (hi == a)%Q.
Proof.
  unfold lower_bound, upper_bound. rewrite !quantile_singleton.
  cbn [isnan].
  destruct (lerp_same a (inject_Z 0 * (1 # 4) - inject_Z 0)) as [q1 [-> E1]].
  destruct (lerp_same a (inject_Z 0 * (3 # 4) - inject_Z 0)) as [q3 [-> E3]].
  cbn [xsub xopp xadd xmul]. do 4 eexists.
  repeat (split; [reflexivity |]).
  rewrite E1, E3. repeat split; ring.
Qed.

(** A lone amount is never strictly outside its own fences. *)
Lemma singleton_inside (x : xnum) :
  xltb x (lower_bound [x]) = false /\ xgtb x (upper_bound [x]) = false.
Proof.
  destruct x as [a | | |].
  - destruct (singleton_fences a)
      as [q1 [q3 [lo [hi [_ [_ [-> [-> [_ [_ [_ [L H]]]]]]]]]]]].
    unfold xgtb. cbn [xltb]. split; qprop; lra.
  - unfold lower_bound, upper_bound. rewrite !quantile_singleton.
    cbn [isnan]. rewrite !lerp_infinite by reflexivity. split; reflexivity.
  - unfold lower_bound, upper_bound. rewrite !quantile_singleton.
    cbn [isnan]. rewrite !lerp_infinite by reflexivity. split; reflexivity.
  - split; reflexivity.
Qed.

Lemma filter_map_rows (A B : Type) (f : A -> B) (P : B -> bool)
  (l : list A) :
  filter P (map f l) = map f (filter (fun x => P (f x)) l).
Proof.
  induction l as [| a l IH]; [reflexivity |].
  cbn [map filter]. destruct (P (f a)); cbn [map]; now rewrite IH.
Qed.

(** C5. A claim that is alone in its policy_type group is not flagged:
    its flag is "amount strictly below the lower fence or strictly above
    the upper fence" of its own group, and for a single (finite) amount
    Q1 = Q3 = that amount, IQR = 0 and both fences equal the amount. *)
Theorem single_claim_group_not_outlier (df : list claim) (r : flagged) :
  In r (detect_outliers_iqr df) ->
  List.length (filter (has_type (policy_type (row r))) df) = 1%nat ->
  is_outlier r = false
  /\ is_outlier r
     = (xltb (claim_amount (row r))
             (lower_bound (group_amounts df (policy_type (row r))))
        || xgtb (claim_amount (row r))
                (upper_bound (group_amounts df (policy_type (row r)))))
  /\ (forall a, claim_amount (row r) = Fin a ->
        let subset := group_amounts df (policy_type (row r)) in
        exists q1 q3 lo hi,
          quantile subset (1 # 4) = Fin q1
          /\ quantile subset (3 # 4) = Fin q3
          /\ lower_bound subset = Fin lo /\ upper_bound subset = Fin hi
          /\ (q1 == a)%Q /\ (q3 == a)%Q /\ (q3 - q1 == 0)%Q
          /\ (lo == a)%Q /\ (hi == a)%Q).
Proof.
  rewrite detect_outliers_iqr_spec. intros Hr Hone.
  apply in_map_iff in Hr. destruct Hr as [c [<- Hc]].
  cbn [row is_outlier] in *.
  assert (G : filter (has_type (policy_type c)) df = [c]).
  { assert (I : In c (filter (has_type (policy_type c)) df)).
    { apply filter_In. split; [exact Hc |]. now apply has_type_eq. }
    destruct (filter (has_type (policy_type c)) df) as [| c' [| ? ?]];
      try discriminate.
    destruct I as [-> | []]. reflexivity. }
  assert (S : group_amounts df (policy_type c) = [claim_amount c]).
  { unfold group_amounts. now rewrite G. }
  unfold outside_fences. rewrite S.
  destruct (singleton_inside (claim_amount c)) as [L U].
  split; [now rewrite L, U |]. split; [reflexivity |].
  intros a Ea. rewrite Ea. apply singleton_fences.
Qed.

Lemma single_claim_group_not_outlier_witness :
  let df := [claim_of "c1" "auto" 10; claim_of "c2" "home" 900;
             claim_of "c3" "auto" 12] in
  let r := {| row := claim_of "c2" "home" 900; is_outlier := false |} in
  is_outlier r = false
  /\ is_outlier r
     = (xltb (claim_amount (row r))
             (lower_bound (group_amounts df (policy_type (row r))))
        || xgtb (claim_amount (row r))
                (upper_bound (group_amounts df (policy_type (row r)))))
  /\ (forall a, claim_amount (row r) = Fin a ->
        let subset := group_amounts df (policy_type (row r)) in
        exists q1 q3 lo hi,
          quantile subset (1 # 4) = Fin q1
          /\ quantile subset (3 # 4) = Fin q3
          /\ lower_bound subset = Fin lo /\ upper_bound subset = Fin hi
          /\ (q1 == a)%Q /\ (q3 == a)%Q /\ (q3 - q1 == 0)%Q
          /\ (lo == a)%Q /\ (hi == a)%Q).
Proof.
  intros df r. apply (single_claim_group_not_outlier df r).
  - right. left. reflexivity.
  - reflexivity.
Defined.

(** C6. Two tables with the same rows of one policy type give those rows
    the same flags: the flag of a claim is computed from the claims of its
    own policy type only. *)
Theorem outlier_flag_depends_on_own_group
  (df1 df2 : list claim) (ptype : string) :
  filter (has_type ptype) df1 = filter (has_type ptype) df2 ->
  filter (fun r => has_type ptype (row r)) (detect_outliers_iqr df1)
  = filter (fun r => has_type ptype (row r)) (detect_outliers_iqr df2).
Proof.
  intro H. rewrite !detect_outliers_iqr_spec, !filter_map_rows.
  cbn [row]. change (fun x : claim => has_type ptype x) with (has_type ptype).
  rewrite <- H. apply map_ext_in. intros c Hc.
  apply filter_In in Hc. destruct Hc as [_ T]. apply has_type_eq in T.
  f_equal. unfold outside_fences, group_amounts. rewrite T, H.
  reflexivity.
Qed.

Lemma outlier_flag_depends_on_own_group_witness :
  let autos := [claim_of "a1" "auto" 10; claim_of "a2" "auto" 11;
                claim_of "a3" "auto" 12; claim_of "a4" "auto" 13;
                claim_of "a5" "auto" 500] in
  let df1 := autos ++ [claim_of "h1" "home" 7] in
  let df2 := claim_of "h2" "home" 90000 :: autos ++ [claim_of "l1" "life" 3] in
  filter (fun r => has_type "auto" (row r)) (detect_outliers_iqr df1)
  = filter (fun r => has_type "auto" (row r)) (detect_outliers_iqr df2).
Proof.
  intros autos df1 df2.
  apply (outlier_flag_depends_on_own_group df1 df2 "auto"). reflexivity.
Defined.

(** *** Claim scores *)

Lemma in_scores (df : list flagged) (s : scored) :
  In s (calculate_risk_scores df) <->
  exists r, In r df /\ s = score_row df r.
Proof.
  unfold calculate_risk_scores. rewrite in_map_iff.
  split; intros [r [A B]]; exists r; auto.
Qed.

(** The bonus read back from the joined text is 5 per reason. *)
Lemma reason_bonus_counts
  (history : Z) (coverage : xnum) (timing : Z) (outlier : bool) :
  reason_bonus (join_reasons (reason_list history coverage timing outlier))
  = 5 * Z.of_nat (List.length (reason_list history coverage timing outlier)).
Proof.
  unfold reason_list.
  destruct (0 <? history), (xgtb coverage (Fin 40)), (0 <? timing), outlier;
    reflexivity.
Qed.

Lemma reason_list_length
  (history : Z) (coverage : xnum) (timing : Z) (outlier : bool) :
  (List.length (reason_list history coverage timing outlier) <= 4)%nat.
Proof.
  unfold reason_list.
  destruct (0 <? history), (xgtb coverage (Fin 40)), (0 <? timing), outlier;
    cbn; lia.
Qed.

(** C1, as stated, fails: a table with one claim of 1000 on coverage 0 is
    scored without any error, with an infinite coverage_ratio and
    score_coverage 50. *)
Lemma zero_coverage_is_scored_example :
  let r := {| row := {| claim_id := "c1"; customer_id := "u1";
                        policy_type := "auto";
                        claim_amount := Fin 1000;
                        coverage_amount := Fin 0;
                        claim_date := Some (100 * ns_per_day);
                        start_date := Some 0 |};
              is_outlier := false |} in
  ~ zero_coverage_is_fatal
  /\ run_calculate_risk_scores [r] <> Raised DataError
  /\ exists s, run_calculate_risk_scores [r] = Returned [s]
               /\ coverage_ratio s = PInf
               /\ score_coverage s = Fin 50
               /\ risk_score s = Fin 55.
Proof.
  intro r. split; [| split].
  - intro F. specialize (F [r] r (or_introl eq_refl) eq_refl). discriminate.
  - discriminate.
  - eexists. repeat split.
Qed.

(** C1, amended. A claim row whose coverage_amount is the non-negative
    zero (a cell 0 or 0.0, which is the zero [Fin 0] of the model; not
    -0.0) raises nothing: the scoring returns its table with that row
    scored; its coverage_ratio is +infinity when claim_amount is positive
    and NaN when claim_amount is 0, and its score_coverage is 50 in both
    cases.  (For a coverage cell -0.0 the quotient is -infinity, see
    [Binary64Facts].) *)
Theorem zero_coverage_scores_fifty (df : list flagged) (r : flagged) :
  In r df -> xeqb (coverage_amount (row r)) (Fin 0) = true ->
  run_calculate_risk_scores df = Returned (calculate_risk_scores df)
  /\ In (score_row df r) (calculate_risk_scores df)
  /\ (xgtb (claim_amount (row r)) (Fin 0) = true ->
      coverage_ratio (score_row df r) = PInf
      /\ score_coverage (score_row df r) = Fin 50)
  /\ (xeqb (claim_amount (row r)) (Fin 0) = true ->
      coverage_ratio (score_row df r) = NaN
      /\ score_coverage (score_row df r) = Fin 50).
Proof.
  intros Hr Hz. split; [reflexivity |].
  split; [apply in_scores; eauto |].
  cbn [coverage_ratio score_coverage score_row].
  destruct (coverage_amount (row r)) as [b | | |]; try discriminate.
  cbn [xeqb] in Hz.
  assert (L : Qltb b 0 = false) by (qprop; lra).
  destruct (claim_amount (row r)) as [a | | |]; unfold xgtb; cbn [xltb xeqb];
    split; intro H; try discriminate.
  - cbn [xdiv]. rewrite Hz. unfold Qsign.
    apply Qltb_lt in H. pose proof (proj1 (Qlt_alt 0 a) H) as C.
    rewrite <- Qcompare_antisym, C. cbn. split; reflexivity.
  - cbn [xdiv]. rewrite Hz. unfold Qsign.
    apply Qeqb_eq in H. pose proof (proj1 (Qeq_alt a 0) H) as C.
    rewrite C. cbn. split; reflexivity.
  - cbn [xdiv]. rewrite L. split; reflexivity.
Qed.

Lemma zero_coverage_scores_fifty_witness :
  let r := {| row := {| claim_id := "c1"; customer_id := "u1";
                        policy_type := "auto";
                        claim_amount := Fin 1000;
                        coverage_amount := Fin 0;
                        claim_date := Some (100 * ns_per_day);
                        start_date := Some 0 |};
              is_outlier := false |} in
  run_calculate_risk_scores [r] = Returned (calculate_risk_scores [r])
  /\ In (score_row [r] r) (calculate_risk_scores [r])
  /\ (xgtb (claim_amount (row r)) (Fin 0) = true ->
      coverage_ratio (score_row [r] r) = PInf
      /\ score_coverage (score_row [r] r) = Fin 50)
  /\ (xeqb (claim_amount (row r)) (Fin 0) = true ->
      coverage_ratio (score_row [r] r) = NaN
      /\ score_coverage (score_row [r] r) = Fin 50).
Proof.
  intro r. apply (zero_coverage_scores_fifty [r] r).
  - left. reflexivity.
  - reflexivity.
Defined.

(** C7. The final risk_score of a row is score_coverage + score_timing
    + score_history + 5 * (number of reason tags that apply); when none
    applies the text is "Normal" and the bonus is 0, otherwise the text is
    the tags joined by ", ".  With score_coverage 25, score_timing 30,
    score_history 10 and two reasons the risk_score is 75. *)
Theorem risk_score_formula (df : list flagged) (s : scored) :
  In s (calculate_risk_scores df) ->
  risk_score s
  = xadd (xadd (xadd (score_coverage s) (of_Z (score_timing s)))
               (of_Z (score_history s)))
         (of_Z (5 * Z.of_nat (List.length (reasons_of s))))
  /\ (reasons_of s = [] ->
      anomaly_reasons s = "Normal"%string
      /\ reason_bonus (anomaly_reasons s) = 0)
  /\ (reasons_of s <> [] ->
      anomaly_reasons s = String.concat ", " (reasons_of s))
  /\ (exists s1 rest,
        calculate_risk_scores three_claims = s1 :: rest
        /\ xeqb (score_coverage s1) (Fin 25) = true
        /\ score_timing s1 = 30 /\ score_history s1 = 10
        /\ reasons_of s1 = ["Multiple claims history"%string;
                            "Early claim after policy start"%string]
        /\ xeqb (risk_score s1) (Fin 75) = true).
Proof.
  intro Hs. apply in_scores in Hs. destruct Hs as [r [_ ->]].
  unfold reasons_of.
  cbn [risk_score score_coverage score_timing score_history anomaly_reasons
       base score_row].
  rewrite reason_bonus_counts.
  split; [reflexivity |]. split; [| split].
  - intros ->. split; reflexivity.
  - intro N. unfold join_reasons.
    destruct (reason_list _ _ _ _); [contradiction | reflexivity].
  - do 2 eexists. split; [reflexivity |]. repeat split.
Qed.

Lemma risk_score_formula_witness :
  let s := score_row three_claims (claim_on_day "c1" 1000 10) in
  risk_score s
  = xadd (xadd (xadd (score_coverage s) (of_Z (score_timing s)))
               (of_Z (score_history s)))
         (of_Z (5 * Z.of_nat (List.length (reasons_of s))))
  /\ (reasons_of s = [] ->
      anomaly_reasons s = "Normal"%string
      /\ reason_bonus (anomaly_reasons s) = 0)
  /\ (reasons_of s <> [] ->
      anomaly_reasons s = String.concat ", " (reasons_of s))
  /\ (exists s1 rest,
        calculate_risk_scores three_claims = s1 :: rest
        /\ xeqb (score_coverage s1) (Fin 25) = true
        /\ score_timing s1 = 30 /\ score_history s1 = 10
        /\ reasons_of s1 = ["Multiple claims history"%string;
                            "Early claim after policy start"%string]
        /\ xeqb (risk_score s1) (Fin 75) = true).
Proof.
  intro s. apply (risk_score_formula three_claims s). left. reflexivity.
Defined.

(** The code's counter agrees with counting the customer's identifier
    among the customer_id cells of the table. *)
Lemma claim_count_occurrences (df : list flagged) (cust : string) :
  claim_count df cust
  = Z.of_nat
      (count_occ string_dec (map (fun r => customer_id (row r)) df) cust).
Proof.
  unfold claim_count. f_equal.
  induction df as [| r df IH]; [reflexivity |].
  cbn [map filter count_occ].
  destruct (String.eqb_spec (customer_id (row r)) cust) as [E | N];
    destruct (string_dec (customer_id (row r)) cust) as [E' | N'];
    try contradiction; cbn [List.length]; now rewrite IH.
Qed.

(** C8. With [c] the number of rows of the scored table that carry a
    row's customer_id, score_history is clamp((c - 1) * 5, 0, 20), that is
    min(20, max(0, (c - 1) * 5)), and all claims of one customer get the
    same score_history.  Three claims of one customer score 10 each; six
    claims of one customer score 20 each and the single claim of another
    customer in the same table scores 0. *)
Theorem score_history_clamped (df : list flagged) (s : scored) :
  In s (calculate_risk_scores df) ->
  let c :=
    Z.of_nat
      (count_occ string_dec (map (fun r => customer_id (row r)) df)
                 (customer_id (row (base s)))) in
  1 <= c
  /\ score_history s = Z.min 20 (Z.max 0 ((c - 1) * 5))
  /\ (forall s', In s' (calculate_risk_scores df) ->
        customer_id (row (base s')) = customer_id (row (base s)) ->
        score_history s' = score_history s)
  /\ map score_history (calculate_risk_scores three_claims) = [10; 10; 10]
  /\ map score_history
       (calculate_risk_scores
          (map (fun c => {| row := c; is_outlier := false |})
               [claim_of "a1" "auto" 1; claim_of "a2" "auto" 2;
                claim_of "a3" "auto" 3; claim_of "a4" "auto" 4;
                claim_of "a5" "auto" 5; claim_of "a6" "auto" 6;
                {| claim_id := "b1"; customer_id := "v";
                   policy_type := "auto"; claim_amount := Fin 7;
                   coverage_amount := Fin 1000;
                   claim_date := Some 0; start_date := Some 0 |}]))
     = [20; 20; 20; 20; 20; 20; 0].
Proof.
  intro Hs. apply in_scores in Hs. destruct Hs as [r [Hr ->]].
  cbn [base score_history score_row]. cbv zeta.
  rewrite <- claim_count_occurrences.
  split; [| split; [| split; [| split; reflexivity]]].
  - unfold claim_count.
    assert (I : In r (filter (fun r' => String.eqb (customer_id (row r'))
                                          (customer_id (row r))) df)).
    { apply filter_In. split; [exact Hr | apply String.eqb_refl]. }
    destruct (filter _ df); [destruct I | cbn [List.length]; lia].
  - unfold history_points. lia.
  - intros s' Hs' E. apply in_scores in Hs'. destruct Hs' as [r' [_ ->]].
    cbn [base score_history score_row] in *. now rewrite E.
Qed.

Lemma score_history_clamped_witness :
  let s := score_row three_claims (claim_on_day "c2" 200 45) in
  1 <= 3
  /\ score_history s = Z.min 20 (Z.max 0 ((3 - 1) * 5))
  /\ score_history s = 10
  /\ (forall s', In s' (calculate_risk_scores three_claims) ->
        customer_id (row (base s')) = customer_id (row (base s)) ->
        score_history s' = score_history s)
  /\ map score_history (calculate_risk_scores three_claims) = [10; 10; 10].
Proof.
  intro s.
  destruct (score_history_clamped three_claims s
              (or_intror (or_introl eq_refl))) as [A [B [C [D _]]]].
  split; [exact A |]. split; [exact B |].
  split; [rewrite B; reflexivity |]. split; [exact C | exact D].
Defined.

Lemma score_coverage_range (amount coverage : xnum) :
  xgeb amount (Fin 0) = true -> xgtb coverage (Fin 0) = true ->
  exists v, py_min (Fin 50) (xmul (xdiv amount coverage) (Fin 50)) = Fin v
            /\ (0 <= v <= 50)%Q.
Proof.
  unfold xgeb, xgtb.
  destruct amount as [a | | |], coverage as [b | | |]; cbn [xleb xltb];
    intros Ha Hb; try discriminate; qprop.
  - assert (D : Qeqb b 0 = false) by (qprop; lra).
    cbn [xdiv]. rewrite D. cbn [xmul]. unfold py_min. cbn [xltb].
    assert (N : (0 <= a / b)%Q) by (apply Qle_shift_div_l; lra).
    destruct (Qltb (a / b * 50) 50) eqn:L; qprop;
      eexists; (split; [reflexivity | lra]).
  - cbn. eexists; split; [reflexivity | lra].
  - assert (L : Qltb b 0 = false) by (qprop; lra).
    cbn [xdiv]. rewrite L. cbn. eexists; split; [reflexivity | lra].
  - cbn. eexists; split; [reflexivity | lra].
Qed.

Lemma timing_points_values (days : option Z) :
  timing_points days = 0 \/ timing_points days = 30.
Proof.
  unfold timing_points. destruct days as [d |]; [| auto].
  destruct (d <? 30); auto.
Qed.

Lemma history_points_range (count : Z) : 0 <= history_points count <= 20.
Proof. unfold history_points. lia. Qed.

Lemma inject_Z_range (lo z hi : Z) :
  lo <= z <= hi -> (inject_Z lo <= inject_Z z <= inject_Z hi)%Q.
Proof. rewrite <- !Zle_Qle. exact (fun H => H). Qed.

(** C10. For a row with claim_amount >= 0 and coverage_amount > 0:
    score_coverage is in [0, 50], score_timing is 0 or 30, score_history
    is in [0, 20], the reason bonus is at most 4 * 5 = 20 (there are four
    reason tags), and the final risk_score is in [0, 120]. *)
Theorem risk_score_range (df : list flagged) (s : scored) :
  In s (calculate_risk_scores df) ->
  xgeb (claim_amount (row (base s))) (Fin 0) = true ->
  xgtb (coverage_amount (row (base s))) (Fin 0) = true ->
  (xleb (Fin 0) (score_coverage s) = true
   /\ xleb (score_coverage s) (Fin 50) = true)
  /\ (score_timing s = 0 \/ score_timing s = 30)
  /\ 0 <= score_history s <= 20
  /\ (List.length (reasons_of s) <= 4)%nat
  /\ 0 <= reason_bonus (anomaly_reasons s) <= 4 * 5
  /\ xleb (Fin 0) (risk_score s) = true
  /\ xleb (risk_score s) (Fin 120) = true.
Proof.
  intro Hs. apply in_scores in Hs. destruct Hs as [r [_ ->]].
  unfold reasons_of.
  cbn [base risk_score score_coverage score_timing score_history
       anomaly_reasons score_row].
  intros Ha Hc.
  destruct (score_coverage_range _ _ Ha Hc) as [v [-> Hv]].
  rewrite reason_bonus_counts.
  set (st := timing_points _). set (sh := history_points _).
  set (n := List.length _).
  assert (Hn : (n <= 4)%nat) by apply reason_list_length.
  assert (Ht : st = 0 \/ st = 30) by apply timing_points_values.
  assert (Hh : 0 <= sh <= 20) by apply history_points_range.
  clearbody st sh n.
  split; [cbn [xleb]; split; qprop; lra |].
  split; [exact Ht |]. split; [exact Hh |]. split; [exact Hn |].
  split; [lia |].
  unfold of_Z. cbn [xadd xleb].
  assert (Tt : 0 <= st <= 30) by lia.
  pose proof (inject_Z_range _ _ _ Tt) as Qt.
  pose proof (inject_Z_range _ _ _ Hh) as Qh.
  assert (Tn : 0 <= 5 * Z.of_nat n <= 20) by lia.
  pose proof (inject_Z_range _ _ _ Tn) as Qn.
  unfold inject_Z in *. split; qprop; lra.
Qed.

Lemma risk_score_range_witness :
  let s := score_row three_claims (claim_on_day "c3" 300 90) in
  (xleb (Fin 0) (score_coverage s) = true
   /\ xleb (score_coverage s) (Fin 50) = true)
  /\ (score_timing s = 0 \/ score_timing s = 30)
  /\ 0 <= score_history s <= 20
  /\ (List.length (reasons_of s) <= 4)%nat
  /\ 0 <= reason_bonus (anomaly_reasons s) <= 4 * 5
  /\ xleb (Fin 0) (risk_score s) = true
  /\ xleb (risk_score s) (Fin 120) = true.
Proof.
  intro s. apply (risk_score_range three_claims s).
  - right. right. left. reflexivity.
  - reflexivity.
  - reflexivity.
Defined.

(** *** The sorted report *)

















(** C9 (defect in the code).  The report is not ordered by number of
    anomaly reasons: on the table [early_and_normal] the row "normal",
    which has no anomaly reason (text "Normal", bonus 0), is placed before
    the row "early", which has one.  The sort key [reason_count] is 1 for
    both rows, so they are ordered by risk_score alone (40 against
    37.5). *)
Theorem normal_row_sorted_before_flagged_row :
  let report := process_claims early_and_normal in
  map out_claim_id report = ["normal"%string; "early"%string]
  /\ map out_anomaly_reasons report
     = ["Normal"%string; "Early claim after policy start"%string]
  /\ map anomaly_reason_count report = [0; 1]
  /\ map reason_count report = [1; 1]
  /\ map (fun r => xeqb (out_risk_score r) (Fin 40)) report = [true; false]
  /\ ~ StronglySorted by_anomaly_reasons report.
Proof.
  cbv zeta. repeat (split; [reflexivity |]).
  intro S. inversion S as [| a l _ F]; subst.
  inversion F as [| b l' B _]; subst.
  destruct B as [B | [B _]]; vm_compute in B; discriminate.
Qed.

End Q4Facts.

(** ** Further properties of the claim pipeline (Q4) *)

Module Q4More.
Import Num NumFacts Q4 Q4Facts.

(** *** Tables keep their rows *)





(** *** The coverage score *)








(** *** The timing score *)



(** *** Reasons, their text and their count *)










(** *** The history score *)




(** *** Quartiles of finite amounts *)





















End Q4More.

(** ** Further properties of the customer pipeline (Q5) *)

Module Q5More.
Import Num NumFacts Q5 Q5Facts.

(** *** Lifetime value and loss ratio *)





(** *** The scaler and the composite score *)
















End Q5More.

(** ** The computation in binary64 *)

Module Binary64Facts.
Import Binary64.


(** The fences of [Q4] are exact; the rounded ones can differ from them by
    a unit in the last place, and with them the flag of an amount that
    sits on a fence.  Among the amounts 3.8, 9.0, 1.0, 4.8, 8.8 and 16.3
    the exact upper fence is 16.3 and the claim of 16.3 is not beyond it;
    in binary64 the fence is 16.299999999999997 and the claim of 16.3 is
    beyond it. *)
Lemma rounded_fence_below_amount :
  let ks := [38; 90; 10; 48; 88; 163] in
  upper_bound (map tenths ks) = S754_finite false 4588042120383692 (-48)
  /\ tenths 163 = S754_finite false 4588042120383693 (-48)
  /\ fltb (upper_bound (map tenths ks)) (tenths 163) = true
  /\ Num.xgtb (Num.Fin (163 # 10))
               (Q4.upper_bound (map (fun k => Num.Fin (k # 10)) ks))
     = false.
Proof. repeat split; vm_compute; reflexivity. Qed.

(** C4 (defect in the code).  The scaled features do not all lie in
    [0, 1], nor the composite score in [0, 100]: for the two customers of
    [customers_a_b], with loss ratios 3000/1000 = 3.0 and 500/1000 = 0.5,
    the scaler computes scale_ = 1/2.5, min_ = -(0.5 * scale_) and
    3.0 * scale_ + min_ = 1.0000000000000002 (1 + 2^-52) for customer A,
    whose risk_score is 100.00000000000001 (100 + 2^-46). *)
Theorem scaled_loss_ratio_above_one :
  scaled_features customers_a_b
  = Returned [ (S754_finite false 4503599627370497 (-52), of_Z 1, of_Z 1);
               (of_Z 0, of_Z 0, of_Z 0) ]
  /\ fltb (of_Z 1) (S754_finite false 4503599627370497 (-52)) = true
  /\ calculate_risk_score customers_a_b
     = Returned [ S754_finite false 7036874417766401 (-46); of_Z 0 ]
  /\ fltb (of_Z 100) (S754_finite false 7036874417766401 (-46)) = true.
Proof. repeat split; vm_compute; reflexivity. Qed.

End Binary64Facts.

(** ** The dtype of the claim totals *)

Module Q5DtypeFacts.
Import Num NumFacts Q5 Q5Facts.

Lemma truediv_column_float64 (cells : list (xnum * xnum)) :
  Q5Dtype.truediv_column Q5Dtype.float64 cells
  = Returned (map (fun xy => xdiv (fst xy) (snd xy)) cells).
Proof.
  induction cells as [| [x y] t IH]; [reflexivity |].
  cbn [Q5Dtype.truediv_column Q5Dtype.truediv map fst snd].
  now rewrite IH.
Qed.

(** On a float64 column the function is [Q5.calculate_ltv_and_loss_ratio]
    and returns. *)
Lemma float64_column_returns (df : list customer) :
  Q5Dtype.calculate_ltv_and_loss_ratio Q5Dtype.float64 df
  = Returned (calculate_ltv_and_loss_ratio df).
Proof.
  unfold Q5Dtype.calculate_ltv_and_loss_ratio.
  rewrite truediv_column_float64. f_equal.
  unfold calculate_ltv_and_loss_ratio.
  rewrite map_map. cbn [fst snd].
  rewrite (combine_map_self _ _
             (fun c => xdiv (total_claim_amount c) (annual_premium_sum c))).
  rewrite map_map. reflexivity.
Qed.

Lemma truediv_column_object (cells : list (xnum * xnum)) :
  (exists xy, In xy cells /\ xeqb (snd xy) (Fin 0) = true) ->
  Q5Dtype.truediv_column Q5Dtype.object cells = Raised ZeroDivisionError.
Proof.
  induction cells as [| [x y] t IH]; intros [xy [Hin Hz]];
    [destruct Hin |].
  cbn [Q5Dtype.truediv_column Q5Dtype.truediv].
  destruct (xeqb y (Fin 0)) eqn:E; [reflexivity |].
  destruct Hin as [<- | Hin]; [cbn [snd] in Hz; congruence |].
  rewrite IH by eauto. reflexivity.
Qed.

Lemma truediv_column_object_returns (cells : list (xnum * xnum)) :
  (forall xy, In xy cells -> xeqb (snd xy) (Fin 0) = false) ->
  Q5Dtype.truediv_column Q5Dtype.object cells
  = Returned (map (fun xy => xdiv (fst xy) (snd xy)) cells).
Proof.
  induction cells as [| [x y] t IH]; intro H; [reflexivity |].
  cbn [Q5Dtype.truediv_column Q5Dtype.truediv map fst snd].
  pose proof (H (x, y) (or_introl eq_refl)) as E. cbn [snd] in E.
  rewrite E. rewrite IH by (intros; apply H; now right). reflexivity.
Qed.

Lemma object_column_raises (df : list customer) :
  (exists c, In c df /\ xeqb (annual_premium_sum c) (Fin 0) = true) ->
  Q5Dtype.calculate_ltv_and_loss_ratio Q5Dtype.object df
  = Raised ZeroDivisionError.
Proof.
  intros [c [Hc Hz]]. unfold Q5Dtype.calculate_ltv_and_loss_ratio.
  rewrite truediv_column_object; [reflexivity |].
  exists (total_claim_amount c, annual_premium_sum c).
  split; [| exact Hz].
  apply in_map_iff. exists c. auto.
Qed.

(** C3 (defect in the code).  The zero denominator is not always
    absorbed: when [total_claim_amount] is an object column (the claims
    file has no rows, every total is the Python int 0), line 92 divides
    with Python's [/] and a customer whose annual_premium_sum is 0 makes
    [calculate_ltv_and_loss_ratio] stop with ZeroDivisionError before
    [replace] and [fillna] apply; without such a customer it returns.  On
    a float64 column it always returns, with loss_ratio 0 for a zero or
    non-finite premium sum; claim_frequency_per_year (line 102, an int64
    column over a float64 one) is 0 for a zero or non-finite tenure.  The
    main block stops with ZeroDivisionError
    on a claims file without rows, one customer "A" and his one policy,
    EXPIRED, of premium 1000. *)
Theorem zero_premium_raises_on_object_column (df : list customer) :
  ((exists c, In c df /\ xeqb (annual_premium_sum c) (Fin 0) = true) ->
   Q5Dtype.calculate_ltv_and_loss_ratio Q5Dtype.object df
   = Raised ZeroDivisionError)
  /\ ((forall c, In c df -> xeqb (annual_premium_sum c) (Fin 0) = false) ->
      Q5Dtype.calculate_ltv_and_loss_ratio Q5Dtype.object df
      = Returned (calculate_ltv_and_loss_ratio df))
  /\ Q5Dtype.calculate_ltv_and_loss_ratio Q5Dtype.float64 df
     = Returned (calculate_ltv_and_loss_ratio df)
  /\ (forall v, In v (calculate_ltv_and_loss_ratio df) ->
        zero_or_nonfinite (annual_premium_sum (cust v)) = true ->
        loss_ratio v = Fin 0)
  /\ (forall v, zero_or_nonfinite (policy_tenure_years (cust v)) = true ->
        claim_frequency v = Fin 0)
  /\ Q5Dtype.calculate_ltv_and_loss_ratio Q5Dtype.object
       [ {| customer_id := "A"; total_claims := 0;
            total_claim_amount := Fin 0; fraud_claims := 0;
            policy_tenure_years := Fin 2;
            annual_premium_sum := Fin 0 |} ]
     = Raised ZeroDivisionError
  /\ (forall now,
        Q5Features.analyse
          []
          [ {| Q5Features.policy_id := "P1";
               Q5Features.policies_customer_id := "A";
               Q5Features.start_date := Some 0;
               Q5Features.status := "EXPIRED";
               Q5Features.annual_premium := Fin 1000 |} ]
          [ {| Q5Features.customers_customer_id := "A" |} ]
          [] now
        = Raised ZeroDivisionError).
Proof.
  split; [| split; [| split; [| split; [| split; [| split;
    [reflexivity |]]]]]].
  - apply object_column_raises.
  - intro H. unfold Q5Dtype.calculate_ltv_and_loss_ratio.
    rewrite truediv_column_object_returns.
    + f_equal. unfold calculate_ltv_and_loss_ratio.
      rewrite map_map. cbn [fst snd].
      rewrite (combine_map_self _ _
                 (fun c => xdiv (total_claim_amount c)
                                (annual_premium_sum c))).
      rewrite map_map. reflexivity.
    + intros xy Hxy. apply in_map_iff in Hxy.
      destruct Hxy as [c [<- Hc]]. cbn [snd]. auto.
  - apply float64_column_returns.
  - intros v Hv Hz. unfold calculate_ltv_and_loss_ratio in Hv.
    apply in_map_iff in Hv. destruct Hv as [c [<- _]].
    cbn [cust loss_ratio ltv_and_loss_ratio_row] in *.
    now apply cleaned_ratio_zero.
  - intros v Hz. unfold claim_frequency. now apply cleaned_ratio_zero.
  - intro now. reflexivity.
Qed.

End Q5DtypeFacts.

(** ** Joins and customer features (Q5) *)

Module Q5FeaturesFacts.
Import Num NumFacts Q5Features.

(** *** Left joins *)

Section LeftMergeFacts.
Context {A B : Type} (on : A -> B -> bool).

Lemma left_merge_cons (a : A) (l : list A) (r : list B) :
  left_merge on (a :: l) r
  = match filter (on a) r with
    | [] => [(a, None)]
    | b :: bs => map (fun b' => (a, Some b')) (b :: bs)
    end ++ left_merge on l r.
Proof. reflexivity. Qed.

Lemma in_left_merge_some (a : A) (b : B) (l : list A) (r : list B) :
  In (a, Some b) (left_merge on l r) <->
  In a l /\ In b r /\ on a b = true.
Proof.
  unfold left_merge. rewrite in_flat_map. split.
  - intros [a' [Ha H]].
    destruct (filter (on a') r) as [| b0 bs] eqn:F.
    + destruct H as [H | []]. discriminate.
    + rewrite <- F in H. apply in_map_iff in H.
      destruct H as [b' [E Hb]]. injection E as -> ->.
      apply filter_In in Hb. tauto.
  - intros [Ha [Hb O]]. exists a. split; [exact Ha |].
    assert (I : In b (filter (on a) r)) by (apply filter_In; auto).
    destruct (filter (on a) r) as [| b0 bs] eqn:F; [destruct I |].
    apply in_map_iff. exists b. auto.
Qed.

Lemma in_left_merge_none (a : A) (l : list A) (r : list B) :
  In (a, None) (left_merge on l r) <->
  In a l /\ forall b, In b r -> on a b = false.
Proof.
  unfold left_merge. rewrite in_flat_map. split.
  - intros [a' [Ha H]].
    destruct (filter (on a') r) as [| b0 bs] eqn:F.
    + destruct H as [H | []]. injection H as ->. split; [exact Ha |].
      intros b Hb. destruct (on a b) eqn:O; [| reflexivity].
      assert (I : In b (filter (on a) r)) by (apply filter_In; auto).
      rewrite F in I. destruct I.
    + apply in_map_iff in H. destruct H as [b' [E _]]. discriminate.
  - intros [Ha N]. exists a. split; [exact Ha |].
    destruct (filter (on a) r) as [| b0 bs] eqn:F; [left; reflexivity |].
    assert (I : In b0 (filter (on a) r)) by (rewrite F; left; reflexivity).
    apply filter_In in I. destruct I as [Hb O].
    rewrite (N b0 Hb) in O. discriminate.
Qed.

Lemma left_merge_fst_in (a : A) (l : list A) (r : list B) :
  In a (map fst (left_merge on l r)) <-> In a l.
Proof.
  rewrite in_map_iff. split.
  - intros [[a' [b |]] [E H]]; cbn in E; subst a'.
    + apply in_left_merge_some in H. tauto.
    + apply in_left_merge_none in H. tauto.
  - intro Ha. destruct (filter (on a) r) as [| b0 bs] eqn:F.
    + exists (a, None). split; [reflexivity |].
      apply in_left_merge_none. split; [exact Ha |].
      intros b Hb. destruct (on a b) eqn:O; [| reflexivity].
      assert (I : In b (filter (on a) r)) by (apply filter_In; auto).
      rewrite F in I. destruct I.
    + exists (a, Some b0). split; [reflexivity |].
      assert (I : In b0 (filter (on a) r)) by (rewrite F; left; reflexivity).
      apply filter_In in I. apply in_left_merge_some. tauto.
Qed.

Lemma left_merge_filter (P : A -> bool) (l : list A) (r : list B) :
  filter (fun p => P (fst p)) (left_merge on l r)
  = left_merge on (filter P l) r.
Proof.
  induction l as [| a l IH]; [reflexivity |].
  rewrite left_merge_cons, filter_app, IH.
  assert (E : filter (fun p : A * option B => P (fst p))
                match filter (on a) r with
                | [] => [(a, None)]
                | b :: bs => map (fun b' => (a, Some b')) (b :: bs)
                end
              = if P a
                then match filter (on a) r with
                     | [] => [(a, None)]
                     | b :: bs => map (fun b' => (a, Some b')) (b :: bs)
                     end
                else []).
  { destruct (filter (on a) r) as [| b bs].
    - cbn [filter fst]. now destruct (P a).
    - generalize (b :: bs). intro m.
      induction m as [| b' m IHm]; cbn [map filter fst];
        [now destruct (P a) |].
      rewrite IHm. now destruct (P a). }
  rewrite E. cbn [filter]. destruct (P a); reflexivity.
Qed.

Lemma left_merge_no_match (l : list A) (r : list B) :
  (forall a b, In a l -> In b r -> on a b = false) ->
  left_merge on l r = map (fun a => (a, None)) l.
Proof.
  intro N. induction l as [| a l IH]; [reflexivity |].
  rewrite left_merge_cons, IH by (intros; apply N; [right |]; assumption).
  assert (F : filter (on a) r = []).
  { destruct (filter (on a) r) as [| b bs] eqn:F; [reflexivity |].
    assert (I : In b (filter (on a) r)) by (rewrite F; left; reflexivity).
    apply filter_In in I. destruct I as [Hb O].
    rewrite (N a b (or_introl eq_refl) Hb) in O. discriminate. }
  rewrite F. reflexivity.
Qed.

Lemma left_merge_single_match (l : list A) (r : list B) :
  (forall a, In a l -> (List.length (filter (on a) r) <= 1)%nat) ->
  map fst (left_merge on l r) = l.
Proof.
  intro U. induction l as [| a l IH]; [reflexivity |].
  rewrite left_merge_cons, map_app, IH by (intros; apply U; now right).
  specialize (U a (or_introl eq_refl)).
  destruct (filter (on a) r) as [| b [| b' bs]]; cbn in U |- *;
    [reflexivity | reflexivity | lia].
Qed.

Lemma left_merge_length (l : list A) (r : list B) :
  (List.length l <= List.length (left_merge on l r))%nat.
Proof.
  induction l as [| a l IH]; [cbn; lia |].
  rewrite left_merge_cons, length_app. cbn [List.length].
  destruct (filter (on a) r); cbn [List.length map]; lia.
Qed.

(** A left join loses no row of its left table and invents none: the
    left rows of the result are those of the left table; the result has
    exactly the left table's rows, in order, when no left row matches
    more than one right row, and more rows otherwise never fewer. *)
Theorem left_merge_keeps_left_rows (l : list A) (r : list B) :
  (forall a, In a (map fst (left_merge on l r)) <-> In a l)
  /\ (List.length l <= List.length (left_merge on l r))%nat
  /\ ((forall a, In a l -> (List.length (filter (on a) r) <= 1)%nat) ->
      map fst (left_merge on l r) = l)
  /\ (forall a b, In (a, Some b) (left_merge on l r) <->
                  In a l /\ In b r /\ on a b = true)
  /\ (forall a, In (a, None) (left_merge on l r) <->
                In a l /\ forall b, In b r -> on a b = false).
Proof.
  split; [intro a; apply left_merge_fst_in |].
  split; [apply left_merge_length |].
  split; [apply left_merge_single_match |].
  split; [intros a b; apply in_left_merge_some |].
  intro a. apply in_left_merge_none.
Qed.
End LeftMergeFacts.

(** *** The master table and the customer table *)
























End Q5FeaturesFacts.
